(** * nargo_download_tracker: the tracker and the visualiser, embedded in Rocq

    The development follows the two scripts of the repository:

    - [scripts/visualize_downloads.py]: [parse_semver], the asset-name
      inference and the release selection of [create_asset_breakdown];
    - [scripts/nargo_download_tracker.py]: the methods of
      [NoirDownloadTracker].

    Conventions of the embedding.

    - A Python [str] is a [string]; a character is a code point below 256.
      In that range the regex class [\d] is exactly [0-9].
    - A Python [int] is a [Z].
    - A raising call returns [None] (or an explicit exception value).
    - [datetime.now()] is an argument of the functions that call it.
    - A file is its content, [None] while it does not exist. *)

From Stdlib Require Import ZArith Ascii String List Lia Bool.
From stdpp Require Import base option list gmap strings sorting.

Import ListNotations.
Local Open Scope Z_scope.
Local Open Scope list_scope.

(** * Python strings *)

Module PyStr.

(** [s1 + s2]. *)
Definition cat (s1 s2 : string) : string := String.append s1 s2.

(** [s.startswith(p)]. *)
Fixpoint startswith (s p : string) : bool :=
  match p, s with
  | EmptyString, _ => true
  | String _ _, EmptyString => false
  | String a p', String b s' => Ascii.eqb a b && startswith s' p'
  end.

(** [p in s] for strings: some suffix of [s] starts with [p]. *)
Fixpoint contains (s p : string) : bool :=
  startswith s p ||
  match s with
  | EmptyString => false
  | String _ s' => contains s' p
  end.

(** [s.lstrip(c)] for a one-character argument: every leading [c] goes. *)
Fixpoint lstrip (c : ascii) (s : string) : string :=
  match s with
  | String a s' => if Ascii.eqb a c then lstrip c s' else s
  | EmptyString => EmptyString
  end.

Definition in_range (lo hi : N) (c : ascii) : bool :=
  (lo <=? N_of_ascii c)%N && (N_of_ascii c <=? hi)%N.

(** [c.lower()] on code points below 256: [A-Z] and the upper-case
    letters of the Latin-1 block move by 32. *)
Definition lower_char (c : ascii) : ascii :=
  if in_range 65 90 c
     || (in_range 192 222 c && negb (N_of_ascii c =? 215)%N)
  then ascii_of_N (N_of_ascii c + 32)
  else c.

Fixpoint lower (s : string) : string :=
  match s with
  | EmptyString => EmptyString
  | String c s' => String (lower_char c) (lower s')
  end.

(** [s1 < s2]: code points, lexicographically. *)
Definition lt (s1 s2 : string) : bool := String.ltb s1 s2.
Definition le (s1 s2 : string) : bool := String.leb s1 s2.

(** [s] is empty or starts with a character outside [p]. *)
Definition stops (p : ascii -> bool) (s : string) : bool :=
  match s with
  | EmptyString => true
  | String c _ => negb (p c)
  end.

(** The longest prefix of [s] whose characters satisfy [p], and the rest:
    what a greedy [[class]*] consumes. *)
Fixpoint span (p : ascii -> bool) (s : string) : string * string :=
  match s with
  | EmptyString => (EmptyString, EmptyString)
  | String c s' =>
      if p c then let '(a, b) := span p s' in (String c a, b)
      else (EmptyString, s)
  end.

Definition is_empty (s : string) : bool :=
  match s with EmptyString => true | _ => false end.

Fixpoint forallb (p : ascii -> bool) (s : string) : bool :=
  match s with
  | EmptyString => true
  | String c s' => p c && forallb p s'
  end.

End PyStr.

(** * Python containers *)

Module Py.

(** Lexicographic combination of two comparisons. *)
Definition lex (c : comparison) (k : comparison) : comparison :=
  match c with Eq => k | _ => c end.

(** Every element is below everything after it. *)
Fixpoint ascending {A} (le : A -> A -> bool) (l : list A) : Prop :=
  match l with
  | [] => True
  | x :: l' => (forall y, In y l' -> le x y = true) /\ ascending le l'
  end.

(** [sorted(l)] for a comparison [le]; insertion keeps the order of equal
    elements, as Python's stable sort does. *)
Fixpoint insert_by {A} (le : A -> A -> bool) (x : A) (l : list A) : list A :=
  match l with
  | [] => [x]
  | y :: l' => if le x y then x :: l else y :: insert_by le x l'
  end.

Definition sorted_by {A} (le : A -> A -> bool) (l : list A) : list A :=
  foldr (insert_by le) [] l.

(** [sorted(l)] and [sorted(l, reverse=True)] on strings. *)
Definition sorted (l : list string) : list string :=
  sorted_by PyStr.le l.
Definition sorted_reverse (l : list string) : list string :=
  sorted_by (fun a b => PyStr.le b a) l.

(** [max(l)] on strings: the first greatest element; [None] is the
    [ValueError] of an empty argument. *)
Definition max (l : list string) : option string :=
  match l with
  | [] => None
  | x :: l' => Some (fold_left (fun m y => if PyStr.lt m y then y else m) l' x)
  end.

(** A [dict] with string keys whose iteration order matters: pairs in
    insertion order, keys distinct. *)
Definition dict (V : Type) : Type := list (string * V).

Definition keys {V} (d : dict V) : list string := map fst d.

Fixpoint get {V} (d : dict V) (k : string) : option V :=
  match d with
  | [] => None
  | (k', v) :: d' => if String.eqb k' k then Some v else get d' k
  end.

Definition mem {V} (d : dict V) (k : string) : bool :=
  match get d k with Some _ => true | None => false end.

(** [d[k] = v]: in place for a key that is there, at the end otherwise. *)
Fixpoint set {V} (d : dict V) (k : string) (v : V) : dict V :=
  match d with
  | [] => [(k, v)]
  | (k', v') :: d' =>
      if String.eqb k' k then (k', v) :: d' else (k', v') :: set d' k v
  end.

(** [sum(l)]. *)
Definition sum (l : list Z) : Z := fold_left Z.add l 0.

(** The keys of a [gmap] used as a [dict] whose order is not observed. *)
Definition gkeys {V} (m : gmap string V) : list string := elements (dom m).

End Py.

(** * scripts/visualize_downloads.py: parse_semver *)

Module Semver.

(** [\d] *)
Definition is_digit (c : ascii) : bool := PyStr.in_range 48 57 c.

(** [[a-zA-Z0-9-]] *)
Definition is_label_char (c : ascii) : bool :=
  PyStr.in_range 97 122 c || PyStr.in_range 65 90 c
  || PyStr.in_range 48 57 c || Ascii.eqb c "-".

(** [$] without [re.MULTILINE]: the end of the string, or just before a
    newline that is the last character. *)
Definition at_dollar (s : string) : bool :=
  match s with
  | EmptyString => true
  | String c EmptyString => Ascii.eqb c "010"
  | _ => false
  end.

(** What [\d+] captures: at least one character, digits only. *)
Definition digit_string (d : string) : Prop :=
  PyStr.is_empty d = false /\ PyStr.forallb is_digit d = true.

(** The groups of a successful match: 1, 2, 3 and the optional 4 and 5. *)
Record groups := Groups {
  g_major : string;
  g_minor : string;
  g_patch : string;
  g_pre : option string;
  g_num : option string
}.

(** [(\d+)] followed by the rest of the input; [None] when no digit. *)
Definition digits1 (s : string) : option (string * string) :=
  let '(d, r) := PyStr.span is_digit s in
  if PyStr.is_empty d then None else Some (d, r).

Definition expect (c : ascii) (s : string) : option string :=
  match s with
  | String a s' => if Ascii.eqb a c then Some s' else None
  | EmptyString => None
  end.

(** [(?:\.(\d+))?$] after group 4. *)
Definition match_num (s : string) : option (option string) :=
  if at_dollar s then Some None
  else
    r ← expect "." s;
    '(d, r') ← digits1 r;
    if at_dollar r' then Some (Some d) else None.

(** [(?:-([a-zA-Z0-9-]+)(?:\.(\d+))?)?$] after group 3. *)
Definition match_pre (s : string) : option (option string * option string) :=
  if at_dollar s then Some (None, None)
  else
    r ← expect "-" s;
    let '(l, r') := PyStr.span is_label_char r in
    if PyStr.is_empty l then None
    else n ← match_num r'; Some (Some l, n).

(** [re.match(r'^(\d+)\.(\d+)\.(\d+)(?:-([a-zA-Z0-9-]+)(?:\.(\d+))?)?$', s)].
    Every class is followed by a character outside it (or by [$]), so the
    greedy choice is the only one a backtracking matcher can succeed with. *)
Definition re_match (s : string) : option groups :=
  '(a, r1) ← digits1 s;
  r1' ← expect "." r1;
  '(b, r2) ← digits1 r1';
  r2' ← expect "." r2;
  '(c, r3) ← digits1 r2';
  '(p, n) ← match_pre r3;
  Some (Groups a b c p n).

(** The pattern read as a grammar, with the groups a match captures. *)

(** What [$] leaves unread: nothing, or one final newline. *)
Definition opt_newline (e : string) : Prop :=
  e = EmptyString \/ e = String "010" EmptyString.

(** What [[a-zA-Z0-9-]+] captures. *)
Definition label_string (l : string) : Prop :=
  PyStr.is_empty l = false /\ PyStr.forallb is_label_char l = true.

(** [(?:\.(\d+))?$] *)
Inductive num_tail : string -> option string -> Prop :=
| num_absent (e : string) :
    opt_newline e -> num_tail e None
| num_present (d e : string) :
    digit_string d -> opt_newline e ->
    num_tail (String "." (String.append d e)) (Some d).

(** [(?:-([a-zA-Z0-9-]+)(?:\.(\d+))?)?$] *)
Inductive pre_tail : string -> option string -> option string -> Prop :=
| pre_absent (e : string) :
    opt_newline e -> pre_tail e None None
| pre_present (l t : string) (n : option string) :
    label_string l -> num_tail t n ->
    pre_tail (String "-" (String.append l t)) (Some l) n.

(** The whole pattern. *)
Definition in_pattern (s : string) (m : groups) : Prop :=
  digit_string (g_major m) /\ digit_string (g_minor m) /\
  digit_string (g_patch m) /\
  exists t,
    pre_tail t (g_pre m) (g_num m) /\
    s = String.append (g_major m)
          (String "." (String.append (g_minor m)
             (String "." (String.append (g_patch m) t)))).

(** [int(s)] on a string of decimal digits; [None] is [ValueError].
    Only digit strings are modelled: [parse_semver] calls [int] on
    nothing else. The value is unbounded, as Python's [int] is, but
    CPython (3.11 and later, by default) refuses to convert a string of
    more than 4300 digits, leading zeros counted. *)
Definition max_str_digits : nat := 4300.

Fixpoint int_acc (acc : Z) (s : string) : option Z :=
  match s with
  | EmptyString => Some acc
  | String c s' =>
      if is_digit c
      then int_acc (10 * acc + Z.of_N (N_of_ascii c - 48)) s'
      else None
  end.

Definition py_int (s : string) : option Z :=
  if PyStr.is_empty s then None
  else if (max_str_digits <? String.length s)%nat then None
  else int_acc 0 s.

(** A digit string short enough for [int]. *)
Definition within_limit (d : string) : Prop :=
  (String.length d <= max_str_digits)%nat.

(** The digit groups of a match are short enough for [int]. *)
Definition groups_within_limit (m : groups) : Prop :=
  within_limit (g_major m) /\ within_limit (g_minor m) /\
  within_limit (g_patch m) /\
  forall d, g_num m = Some d -> within_limit d.

(** The first component of the key is an [int] or [float('inf')]. *)
Inductive pynum := PInt (z : Z) | PInf.

(** The 6-tuple [parse_semver] returns. *)
Record key := Key {
  k_major : pynum;
  k_minor : Z;
  k_patch : Z;
  k_priority : Z;
  k_text : string;
  k_num : Z
}.

(** [parse_semver(version)]; [None] would be an exception. *)
Definition parse_semver (version : string) : option key :=
  let version := PyStr.lstrip "v" version in
  match re_match version with
  | Some m =>
      major ← py_int (g_major m);
      minor ← py_int (g_minor m);
      patch ← py_int (g_patch m);
      let prerelease_type := default EmptyString (g_pre m) in
      prerelease_num ←
        match g_num m with
        | Some d => if PyStr.is_empty d then Some 0 else py_int d
        | None => Some 0
        end;
      let prerelease_priority :=
        if PyStr.is_empty prerelease_type then 1 else 0 in
      Some (Key (PInt major) minor patch prerelease_priority
                prerelease_type prerelease_num)
  | None => Some (Key PInf 0 0 0 version 0)
  end.

(** Comparison of the first components: an [int] against an [int], or
    against [inf], which is above every [int] and equal to itself. *)
Definition pynum_compare (a b : pynum) : comparison :=
  match a, b with
  | PInt x, PInt y => Z.compare x y
  | PInt _, PInf => Lt
  | PInf, PInt _ => Gt
  | PInf, PInf => Eq
  end.

(** Python's tuple comparison: the first position where the two tuples
    differ decides. *)
Definition key_compare (a b : key) : comparison :=
  Py.lex (pynum_compare (k_major a) (k_major b))
 (Py.lex (Z.compare (k_minor a) (k_minor b))
 (Py.lex (Z.compare (k_patch a) (k_patch b))
 (Py.lex (Z.compare (k_priority a) (k_priority b))
 (Py.lex (String.compare (k_text a) (k_text b))
      (Z.compare (k_num a) (k_num b)))))).

(** [a < b] on keys, as [sorted(..., key=...)] uses it. *)
Definition key_lt (a b : key) : bool :=
  match key_compare a b with Lt => true | _ => false end.

(** [parse_semver(s) < parse_semver(t)]; false if either call raised. *)
Definition sorts_before (s t : string) : bool :=
  match parse_semver s, parse_semver t with
  | Some a, Some b => key_lt a b
  | _, _ => false
  end.

(** Major, minor and patch of a key. *)
Definition version_core (k : key) : pynum * Z * Z :=
  (k_major k, k_minor k, k_patch k).

(** The pattern matched. *)
Definition parsable (s : string) : bool :=
  match re_match (PyStr.lstrip "v" s) with Some _ => true | None => false end.

(** The pattern matched and group 4 took part in the match. *)
Definition has_prerelease (s : string) : bool :=
  match re_match (PyStr.lstrip "v" s) with
  | Some m => match g_pre m with Some _ => true | None => false end
  | None => false
  end.

(** The pattern matched without the optional part. *)
Definition is_stable (s : string) : bool :=
  match re_match (PyStr.lstrip "v" s) with
  | Some m => match g_pre m with Some _ => false | None => true end
  | None => false
  end.

End Semver.


(** * Calendar dates and [strftime("%Y-%m-%d")] *)

Module Date.

Record date := Date { year : N; month : N; day : N }.

(** The dates [datetime.now()] can give with a four-digit year. *)
Definition valid (d : date) : Prop :=
  (1000 <= year d <= 9999 /\ 1 <= month d <= 12 /\ 1 <= day d <= 31)%N.

Definition digit (n : N) : ascii := ascii_of_N (48 + n).

(** Two decimal digits, zero-padded, in front of [rest]. *)
Definition two (n : N) (rest : string) : string :=
  String (digit (n / 10)) (String (digit (n mod 10)) rest).

(** [d.strftime("%Y-%m-%d")] *)
Definition strftime (d : date) : string :=
  two (year d / 100) (two (year d mod 100)
    (String "-" (two (month d) (String "-" (two (day d) EmptyString))))).

(** Chronological comparison. *)
Definition compare (d1 d2 : date) : comparison :=
  Py.lex (N.compare (year d1) (year d2))
 (Py.lex (N.compare (month d1) (month d2))
         (N.compare (day d1) (day d2))).

(** [d1] is not after [d2]. *)
Definition le (d1 d2 : date) : Prop := compare d1 d2 <> Gt.

End Date.

(** * The records both scripts share *)

Module Data.

(** An asset of a release, as the API returns it. *)
Record asset := Asset {
  name : string;
  a_download_count : Z;
  size : Z;
  browser_download_url : string
}.

(** A release, as the API returns it. *)
Record release := Release {
  tag_name : string;
  assets : list asset
}.

(** A stat row; [daily_change] is [None] when the key is absent. *)
Record stat := Stat {
  timestamp : string;
  release_tag : string;
  asset_name : string;
  download_count : Z;
  asset_size : Z;
  asset_url : string;
  daily_change : option Z
}.

(** [releases[tag]] of a day of the history. *)
Record release_data := ReleaseData {
  r_total_downloads : Z;
  r_assets : list stat
}.

(** [history[date]]. *)
Record day_data := DayData {
  total_downloads : Z;
  releases : Py.dict release_data
}.

(** The parsed content of [download_history.json]. *)
Abbreviation history := (gmap string day_data).

(** [stat['daily_change'] = v]. *)
Definition set_daily_change (s : stat) (v : Z) : stat :=
  Stat (timestamp s) (release_tag s) (asset_name s) (download_count s)
       (asset_size s) (asset_url s) (Some v).

End Data.

(** * scripts/nargo_download_tracker.py *)

Module Tracker.
Import Data.

(** ** fetch_releases *)

(** What [requests.get] can come back with: an exception, or a response
    with its status code and body; a body [None] does not decode. *)
Inductive reply :=
| ConnectionFailed
| Response (status_code : Z) (json : option (list release)).

Inductive exn :=
| RequestException
| HTTPError (status_code : Z)
| JSONDecodeError.

Inductive result (A : Type) :=
| Returned (a : A)
| Raised (e : exn).
Arguments Returned {A} a.
Arguments Raised {A} e.

Definition max_pages : Z := 10.

(** [response.raise_for_status()] raises on 4xx and 5xx. *)
Definition is_error_status (status : Z) : bool :=
  (400 <=? status) && (status <? 600).

(** The [while] loop of [fetch_releases]. [log] records the page of every
    request made, oldest first; [None] means the fuel ran out. *)
Fixpoint fetch_loop (api : Z -> reply) (fuel : nat) (page : Z)
    (releases : list release) (log : list Z)
  : option (result (list release) * list Z) :=
  if page <=? max_pages then
    match fuel with
    | O => None
    | S fuel' =>
        let log := log ++ [page] in
        match api page with
        | ConnectionFailed => Some (Raised RequestException, log)
        | Response status_code json =>
            if status_code =? 422 then Some (Returned releases, log)
            else if is_error_status status_code
            then Some (Raised (HTTPError status_code), log)
            else
              match json with
              | None => Some (Raised JSONDecodeError, log)
              | Some [] => Some (Returned releases, log)
              | Some page_releases =>
                  fetch_loop api fuel' (page + 1)
                             (releases ++ page_releases) log
              end
        end
    end
  else Some (Returned releases, log).

Definition fetch_releases (api : Z -> reply) (fuel : nat)
  : option (result (list release) * list Z) :=
  fetch_loop api fuel 1 [] [].

(** The pages [a], [a+1], ..., [b]. *)
Definition page_range (a b : Z) : list Z :=
  map (fun i => a + Z.of_nat i) (seq 0 (Z.to_nat (b + 1 - a))).

(** The four things the reply for page [p] can be to the loop. *)
Definition page_ok (api : Z -> reply) (p : Z) (l : list release) : Prop :=
  exists st, api p = Response st (Some l) /\ st <> 422 /\
             ~ (400 <= st < 600) /\ l <> [].

Definition page_empty (api : Z -> reply) (p : Z) : Prop :=
  exists st, api p = Response st (Some []) /\ st <> 422 /\
             ~ (400 <= st < 600).

Definition page_exhausted (api : Z -> reply) (p : Z) : Prop :=
  exists body, api p = Response 422 body.

Definition page_failed (api : Z -> reply) (p : Z) (e : exn) : Prop :=
  (api p = ConnectionFailed /\ e = RequestException) \/
  (exists st body, api p = Response st body /\ st <> 422 /\
                   400 <= st < 600 /\ e = HTTPError st) \/
  (exists st, api p = Response st None /\ st <> 422 /\
              ~ (400 <= st < 600) /\ e = JSONDecodeError).

(** The releases on the pages [ps], in order. *)
Definition body_of (r : reply) : list release :=
  match r with Response _ (Some l) => l | _ => [] end.

Definition collected (api : Z -> reply) (ps : list Z) : list release :=
  flat_map (fun p => body_of (api p)) ps.

(** ** filter_v1_releases *)

Definition target_prefix : string := "v1.0.0".

Definition filter_v1_releases (releases : list release) : list release :=
  List.filter (fun release => PyStr.startswith (tag_name release) target_prefix)
              releases.

(** ** extract_download_stats *)

Definition extract_download_stats (now_iso : string) (releases : list release)
  : list stat :=
  flat_map
    (fun release =>
       map (fun asset =>
              Stat now_iso (tag_name release) (name asset)
                   (a_download_count asset) (size asset)
                   (browser_download_url asset) None)
           (assets release))
    releases.

(** [tag] starts with the target prefix. *)
Definition has_target_prefix (tag : string) : Prop :=
  exists rest, tag = String.append target_prefix rest.

(** ** The files of the working directory *)

Inductive cell := CStr (s : string) | CInt (z : Z).

(** A line of a CSV file, by the call that wrote it. *)
Inductive line :=
| Header (fieldnames : list string)
| Row (cells : list cell).

(** A file is its content: [option (list line)] for a CSV log and
    [option history] for [download_history.json], the parsed JSON; it is
    [None] until something opens it for writing. *)

(** ** save_to_csv *)

(** [stat.keys()], in insertion order. *)
Definition stat_keys (s : stat) : list string :=
  ["timestamp"; "release_tag"; "asset_name"; "download_count";
   "asset_size"; "asset_url"]
  ++ match daily_change s with Some _ => ["daily_change"] | None => [] end.

Definition stat_field (s : stat) (f : string) : option cell :=
  if String.eqb f "timestamp" then Some (CStr (timestamp s))
  else if String.eqb f "release_tag" then Some (CStr (release_tag s))
  else if String.eqb f "asset_name" then Some (CStr (asset_name s))
  else if String.eqb f "download_count" then Some (CInt (download_count s))
  else if String.eqb f "asset_size" then Some (CInt (asset_size s))
  else if String.eqb f "asset_url" then Some (CStr (asset_url s))
  else if String.eqb f "daily_change" then CInt <$> daily_change s
  else None.

(** [DictWriter._dict_to_list]: a key outside [fieldnames] is a
    [ValueError] ([None] here), a missing one is written as ['']. *)
Definition dict_to_list (fieldnames : list string) (s : stat)
  : option (list cell) :=
  if forallb (fun k => existsb (String.eqb k) fieldnames) (stat_keys s)
  then Some (map (fun f => default (CStr "") (stat_field s f)) fieldnames)
  else None.

(** [writer.writerows(stats)]: the lines written, and whether a row
    raised (the rows before it are written). *)
Fixpoint writerows (fieldnames : list string) (stats : list stat)
  : list line * bool :=
  match stats with
  | [] => ([], true)
  | s :: stats' =>
      match dict_to_list fieldnames s with
      | None => ([], false)
      | Some cells =>
          let '(ls, ok) := writerows fieldnames stats' in
          (Row cells :: ls, ok)
      end
  end.

(** [save_to_csv(stats)] on [download_history.csv]: the new content and
    whether the call returned normally. *)
Definition save_to_csv (file : option (list line)) (stats : list stat)
  : option (list line) * bool :=
  let file_exists := match file with Some _ => true | None => false end in
  (* open(filename, 'a') *)
  let csvfile := default [] file in
  match stats with
  | [] => (Some csvfile, true)
  | first :: _ =>
      let fieldnames := stat_keys first in
      let csvfile :=
        if negb file_exists then csvfile ++ [Header fieldnames] else csvfile in
      let '(rows, ok) := writerows fieldnames stats in
      (Some (csvfile ++ rows), ok)
  end.

(** ** save_daily_totals_csv *)

Definition save_daily_totals_csv (date_str now_iso : string)
    (file : option (list line)) (stats : list stat) : option (list line) :=
  let file_exists := match file with Some _ => true | None => false end in
  let total_downloads := Py.sum (map download_count stats) in
  let daily_total_record :=
    [CStr date_str; CStr now_iso; CInt total_downloads] in
  let csvfile := default [] file in
  let fieldnames := ["date"; "timestamp"; "total_downloads"]%list in
  let csvfile :=
    if negb file_exists then csvfile ++ [Header fieldnames] else csvfile in
  Some (csvfile ++ [Row daily_total_record]).

(** A sequence of runs of [save_daily_totals_csv], each with its date,
    its timestamp and its rows. *)
Definition daily_totals_runs (runs : list (string * string * list stat))
    (file : option (list line)) : option (list line) :=
  fold_left (fun file '(date_str, now_iso, stats) =>
               save_daily_totals_csv date_str now_iso file stats)
            runs file.

(** A sequence of runs of [save_to_csv]. *)
Definition csv_runs (runs : list (list stat)) (file : option (list line))
  : option (list line) :=
  fold_left (fun file stats => fst (save_to_csv file stats)) runs file.

Definition is_header (l : line) : bool :=
  match l with Header _ => true | Row _ => false end.

(** The number of header lines of a file. *)
Definition header_count (content : list line) : nat :=
  length (List.filter is_header content).

(** ** save_to_json *)

(** One round of the grouping loop. *)
Definition group_stat (releases : Py.dict release_data) (s : stat)
  : Py.dict release_data :=
  let release_tag := release_tag s in
  let releases :=
    if negb (Py.mem releases release_tag)
    then Py.set releases release_tag (ReleaseData 0 [])
    else releases in
  match Py.get releases release_tag with
  | Some rd =>
      Py.set releases release_tag
        (ReleaseData (r_total_downloads rd + download_count s)
                     (r_assets rd ++ [s]))
  | None => releases
  end.

Definition make_day_data (stats : list stat) : day_data :=
  let total_downloads := Py.sum (map download_count stats) in
  let releases := fold_left group_stat stats [] in
  DayData total_downloads releases.

(** [save_to_json(stats)]: the content of [download_history.json] after
    the call. *)
Definition save_to_json (date_str : string) (file : option history)
    (stats : list stat) : option history :=
  let history : history := default ∅ file in
  let day_data := make_day_data stats in
  Some (<[date_str := day_data]> history).

(** ** calculate_daily_changes *)

(** [f"{stat['release_tag']}_{stat['asset_name']}"] *)
Definition stat_key (s : stat) : string :=
  PyStr.cat (release_tag s) (PyStr.cat "_" (asset_name s)).

(** The lookup built from the previous day: later rows overwrite. *)
Definition build_previous_stats (previous_data : day_data) : gmap string Z :=
  fold_left
    (fun (previous_stats : gmap string Z) '(_, release_data) =>
       fold_left
         (fun (previous_stats : gmap string Z) s =>
            <[stat_key s := download_count s]> previous_stats)
         (r_assets release_data) previous_stats)
    (releases previous_data) ∅.

Definition calculate_daily_changes (file : option history)
    (current_stats : list stat) : list stat :=
  match file with
  | None => current_stats
  | Some history =>
      let dates := Py.sorted (Py.gkeys history) in
      if (length dates <? 1)%nat then current_stats
      else
        match last dates ≫= (history !!.) with
        | None => current_stats
        | Some previous_data =>
            let previous_stats := build_previous_stats previous_data in
            map (fun s =>
                   let previous_count :=
                     default 0 (previous_stats !! stat_key s) in
                   set_daily_change s (download_count s - previous_count))
                current_stats
        end
  end.

(** The rows stored under a day of the history, in iteration order. *)
Definition dict_stats (rs : Py.dict release_data) : list stat :=
  flat_map (fun e => r_assets (snd e)) rs.

Definition day_stats (d : day_data) : list stat := dict_stats (releases d).

(** The identity of a row: its release tag and asset name. *)
Definition pair_of (s : stat) : string * string :=
  (release_tag s, asset_name s).

Definition same_pair (p r : stat) : bool :=
  String.eqb (release_tag p) (release_tag r)
  && String.eqb (asset_name p) (asset_name r).

(** The count recorded for the pair of [r] among [previous]: the one
    written last, if there is any. *)
Definition recorded_count (previous : list stat) (r : stat) : option Z :=
  download_count <$> last (List.filter (fun p => same_pair p r) previous).

(** Everything in a row but [daily_change]. *)
Definition row_fields (s : stat)
  : string * string * string * Z * Z * string :=
  (timestamp s, release_tag s, asset_name s, download_count s,
   asset_size s, asset_url s).

End Tracker.

(** * scripts/visualize_downloads.py: create_asset_breakdown *)

Module Visualize.
Import Data.

(** The architecture branch of the loop body. *)
Definition infer_arch (asset_name : string) : string :=
  if PyStr.contains (PyStr.lower asset_name) "aarch64" then "ARM64"
  else if PyStr.contains (PyStr.lower asset_name) "x86_64" then "x86_64"
  else "Unknown".

(** The platform branch of the loop body. *)
Definition infer_platform (asset_name : string) : string :=
  if PyStr.contains (PyStr.lower asset_name) "linux" then "Linux"
  else if PyStr.contains (PyStr.lower asset_name) "darwin"
          || PyStr.contains (PyStr.lower asset_name) "macos" then "macOS"
  else if PyStr.contains (PyStr.lower asset_name) "windows"
          || PyStr.contains asset_name ".exe" then "Windows"
  else "Other".

(** [f"{platform} {arch}"] *)
Definition platform_arch (asset_name : string) : string :=
  PyStr.cat (infer_platform asset_name)
            (PyStr.cat " " (infer_arch asset_name)).

(** The last three lines of the loop body. *)
Definition add_asset (asset_groups : Py.dict Z) (s : stat) : Py.dict Z :=
  let label := platform_arch (asset_name s) in
  let asset_groups :=
    if negb (Py.mem asset_groups label) then Py.set asset_groups label 0
    else asset_groups in
  Py.set asset_groups label
         (default 0 (Py.get asset_groups label) + download_count s).

(** [sorted(latest_data['releases'].keys(), reverse=True)[:5]] *)
Definition selected_release_tags (latest_data : day_data) : list string :=
  take 5 (Py.sorted_reverse (Py.keys (releases latest_data))).

(** The [asset_groups] that [create_asset_breakdown] hands to [plt.pie];
    [None] when it returns before plotting. *)
Definition create_asset_breakdown (history : history) : option (Py.dict Z) :=
  if decide (history = ∅) then None
  else
    latest_date ← Py.max (Py.gkeys history);
    latest_data ← history !! latest_date;
    let release_tags := selected_release_tags latest_data in
    Some
      (fold_left
         (fun asset_groups release_tag =>
            match Py.get (releases latest_data) release_tag with
            | Some release_data =>
                fold_left add_asset (r_assets release_data) asset_groups
            | None => asset_groups
            end)
         release_tags []).

End Visualize.

(** * scripts/nargo_download_tracker.py: run *)

Module Pipeline.
Import Data Tracker.

(** The three files of the working directory. *)
Record files := Files {
  download_history_csv : option (list line);
  daily_totals_csv : option (list line);
  download_history_json : option history
}.

(** The readings of [datetime.now()] of one run, in the order the run
    takes them: the timestamp of [extract_download_stats], the date and
    the timestamp of [save_daily_totals_csv], the date of [save_to_json]. *)
Record clock := Clock {
  extract_iso : string;
  totals_date : string;
  totals_iso : string;
  json_date : string
}.

(** How a run ends: an exception out of [fetch_releases], the
    [ValueError] of [writerows], or the end of [run] with what it printed:
    the number of releases found, the total, and the downloads of the
    last 24 hours when it prints them. *)
Inductive outcome :=
| FetchRaised (e : exn)
| CsvRaised
| Finished (found : nat) (total_downloads : Z) (daily_total : option Z).

(** ['daily_change' in stat] *)
Definition has_daily_change (s : stat) : bool :=
  match daily_change s with Some _ => true | None => false end.

(** The last four lines of [run]. *)
Definition printed_daily_total (stats_with_changes : list stat) : option Z :=
  if existsb has_daily_change stats_with_changes
  then Some (Py.sum (map (fun s => default 0 (daily_change s))
                         stats_with_changes))
  else None.

(** [run()]: the files after it and how it ended; [None] means the fuel of
    the fetch loop ran out. *)
Definition run (api : Z -> reply) (fuel : nat) (now : clock) (fs : files)
  : option (files * outcome) :=
  match fetch_releases api fuel with
  | None => None
  | Some (Raised e, _) => Some (fs, FetchRaised e)
  | Some (Returned releases, _) =>
      let v1_releases := filter_v1_releases releases in
      let stats := extract_download_stats (extract_iso now) v1_releases in
      let stats_with_changes :=
        calculate_daily_changes (download_history_json fs) stats in
      let '(csv, ok) :=
        save_to_csv (download_history_csv fs) stats_with_changes in
      if negb ok
      then Some (Files csv (daily_totals_csv fs) (download_history_json fs),
                 CsvRaised)
      else
        let totals :=
          save_daily_totals_csv (totals_date now) (totals_iso now)
                                (daily_totals_csv fs) stats_with_changes in
        let json :=
          save_to_json (json_date now) (download_history_json fs)
                       stats_with_changes in
        let total_downloads :=
          Py.sum (map download_count stats_with_changes) in
        Some (Files csv totals json,
              Finished (length v1_releases) total_downloads
                       (printed_daily_total stats_with_changes))
  end.




End Pipeline.

(** * scripts/visualize_downloads.py: the charts and the summary *)

Module Report.
Import Data.

(** [sorted(history.items())]: the keys of a [dict] are distinct, so the
    comparison of two items is decided by their keys. *)
Definition sorted_items (history : history) : list (string * day_data) :=
  Py.sorted_by (fun a b => PyStr.le (fst a) (fst b)) (map_to_list history).

(** [max(history.keys())] and the entry under it; [None] is an exception. *)
Definition latest (history : history) : option (string * day_data) :=
  latest_date ← Py.max (Py.gkeys history);
  latest_data ← history !! latest_date;
  Some (latest_date, latest_data).

Section TimeSeries.
Context {D : Type}.

(** [datetime.strptime(date_str, "%Y-%m-%d")], a function of the library:
    [None] is its [ValueError]. *)
Variable strptime : string -> option D.

(** One round of the loop of [create_time_series_plot]. *)
Definition plot_point (acc : option (list D * list Z))
    (item : string * day_data) : option (list D * list Z) :=
  '(dates, total_downloads) ← acc;
  d ← strptime (fst item);
  Some (dates ++ [d], total_downloads ++ [Data.total_downloads (snd item)]).

(** The [dates] and [total_downloads] that [create_time_series_plot]
    hands to [plt.plot]. The outer [None] is an exception, the inner one
    the return before plotting. *)
Definition create_time_series_plot (history : history)
  : option (option (list D * list Z)) :=
  if decide (history = ∅) then Some None
  else
    match fold_left plot_point (sorted_items history) (Some ([], [])) with
    | Some r => Some (Some r)
    | None => None
    end.

End TimeSeries.

(** The loop that fills [release_groups] and [release_totals]. *)
Definition release_totals (latest_data : day_data) : Py.dict Z :=
  fold_left (fun groups '(release_tag, release_data) =>
               Py.set groups release_tag (r_total_downloads release_data))
            (releases latest_data) [].

(** [key=lambda x: parse_semver(x[0])] on every item; [None] if a call
    raises. *)
Fixpoint decorate (items : list (string * Z))
  : option (list (Semver.key * (string * Z))) :=
  match items with
  | [] => Some []
  | x :: items' =>
      k ← Semver.parse_semver (fst x);
      rest ← decorate items';
      Some ((k, x) :: rest)
  end.

(** [a <= b] for keys compared with [<] alone: [not (b < a)]. *)
Definition key_le (a b : Semver.key) : bool := negb (Semver.key_lt b a).

(** The [releases] and [downloads] that [create_release_breakdown] hands
    to [plt.bar]; the outer [None] is an exception of the code before
    that call. The plotting calls themselves are not modelled. *)
Definition create_release_breakdown (history : history)
  : option (option (list string * list Z)) :=
  if decide (history = ∅) then Some None
  else
    '(latest_date, latest_data) ← latest history;
    let release_groups := release_totals latest_data in
    decorated ← decorate release_groups;
    let sorted_releases :=
      map snd (Py.sorted_by (fun a b => key_le (fst a) (fst b)) decorated) in
    Some (Some (map fst sorted_releases, map snd sorted_releases)).

(** What [print_summary] prints. *)
Record summary := Summary {
  s_latest_date : string;
  s_total_downloads : Z;
  s_daily_change : option Z;
  s_top_releases : list (string * Z)
}.

(** All rows of a day, release after release. *)
Definition all_assets (latest_data : day_data) : list stat :=
  flat_map (fun e => r_assets (snd e)) (releases latest_data).

(** The loop over the assets in [print_summary]. *)
Definition daily_change_total (latest_data : day_data) : bool * Z :=
  fold_left
    (fun '(has_daily_changes, daily_total) s =>
       match daily_change s with
       | Some c => (true, daily_total + c)
       | None => (has_daily_changes, daily_total)
       end)
    (all_assets latest_data) (false, 0).

(** [sorted(release_totals.items(), key=lambda x: x[1], reverse=True)[:5]] *)
Definition top_releases (totals : Py.dict Z) : list (string * Z) :=
  take 5 (Py.sorted_by (fun a b => snd b <=? snd a) totals).

(** The rows of the releases that [create_asset_breakdown] selects, in
    the order its loops visit them. *)
Definition selected_assets (latest_data : day_data) : list stat :=
  flat_map (fun release_tag =>
              match Py.get (releases latest_data) release_tag with
              | Some release_data => r_assets release_data
              | None => []
              end)
           (Visualize.selected_release_tags latest_data).

Definition print_summary (history : history) : option (option summary) :=
  if decide (history = ∅) then Some None
  else
    '(latest_date, latest_data) ← latest history;
    let '(has_daily_changes, daily_total) := daily_change_total latest_data in
    Some (Some (Summary latest_date (total_downloads latest_data)
                        (if has_daily_changes then Some daily_total else None)
                        (top_releases (release_totals latest_data)))).

End Report.

(** * Comparisons that are orders *)

Module Order.

(** A three-way comparison of a total order whose [Eq] is equality. *)
Definition is_order {A} (c : A -> A -> comparison) : Prop :=
  (forall x, c x x = Eq) /\
  (forall x y, c x y = Eq -> x = y) /\
  (forall x y, c x y = CompOpp (c y x)) /\
  (forall x y z, c x y = Lt -> c y z = Lt -> c x z = Lt).

(** Pairs, first component first. *)
Definition lex_pair {A B} (cA : A -> A -> comparison)
    (cB : B -> B -> comparison) (p q : A * B) : comparison :=
  Py.lex (cA (fst p) (fst q)) (cB (snd p) (snd q)).

(** A key as nested pairs. *)
Definition key_tuple (k : Semver.key)
  : Semver.pynum * (Z * (Z * (Z * (string * Z)))) :=
  (Semver.k_major k,
   (Semver.k_minor k,
    (Semver.k_patch k,
     (Semver.k_priority k, (Semver.k_text k, Semver.k_num k))))).

End Order.

(** * Concrete inputs *)

Module Examples.
Import Data Tracker.

(** A row with the fields the examples look at. *)
Definition row (tag name : string) (count : Z) : stat :=
  Stat "2025-06-02T09:00:00" tag name count 0 "" None.

(** Two pages of one release each, then the 422 of the result window. *)
Definition beta9 : release := Release "v1.0.0-beta.9" [].
Definition two_pages (page : Z) : reply :=
  if page <=? 2 then Response 200 (Some [beta9]) else Response 422 None.

(** A history of two days. *)
Definition june1 : Date.date := Date.Date 2025 6 1.
Definition june2 : Date.date := Date.Date 2025 6 2.
Definition june2_data : day_data :=
  make_day_data [row "v1.0.0" "nargo.tar.gz" 10].
Definition two_days : history :=
  <[Date.strftime june2 := june2_data]>
    (<[Date.strftime june1 := make_day_data [row "v1.0.0" "nargo.tar.gz" 4]]> ∅).

(** Two pairs with one lookup key, "v1.0.0_a_b". *)
Definition recorded_row : stat := row "v1.0.0_a" "b" 3.
Definition current_row : stat := row "v1.0.0" "a_b" 5.
Definition colliding_day : day_data := make_day_data [recorded_row].
Definition colliding_history : history :=
  <["2025-06-01" := colliding_day]> ∅.

(** Six prereleases with one Linux asset each; the newest has 1000
    downloads, every other one has 1. *)
Definition linux_asset : string := "nargo-x86_64-unknown-linux-gnu.tar.gz".
Definition six_betas : list stat :=
  [row "v1.0.0-beta.10" linux_asset 1000;
   row "v1.0.0-beta.9" linux_asset 1;
   row "v1.0.0-beta.8" linux_asset 1;
   row "v1.0.0-beta.7" linux_asset 1;
   row "v1.0.0-beta.6" linux_asset 1;
   row "v1.0.0-beta.5" linux_asset 1].
Definition six_betas_history : history :=
  <["2025-06-02" := make_day_data six_betas]> ∅.

(** Three releases for the filter. *)
Definition v090 : release := Release "v0.9.0" [].
Definition v100 : release := Release "v1.0.0" [].

(** A day with the two asset names of the inference examples. *)
Definition two_assets_history : history :=
  <["2025-06-02" :=
      make_day_data
        [row "v1.0.0" "noir-x86_64-unknown-linux-gnu.tar.gz" 7;
         row "v1.0.0" "noir.exe" 3]]> ∅.

End Examples.

(** * Concrete inputs for the whole run *)

Module RunExamples.
Import Data Tracker Pipeline.

Definition linux_tar : asset :=
  Asset "nargo-x86_64-unknown-linux-gnu.tar.gz" 10 4096
        "https://github.com/noir-lang/noir/releases/download/v1.0.0-beta.9/nargo-x86_64-unknown-linux-gnu.tar.gz".
Definition mac_tar : asset :=
  Asset "nargo-aarch64-apple-darwin.tar.gz" 15 4096
        "https://github.com/noir-lang/noir/releases/download/v1.0.0-beta.9/nargo-aarch64-apple-darwin.tar.gz".

(** One release of the 1.0.0 line with two assets, and an older one. *)
Definition beta9_assets : release := Release "v1.0.0-beta.9" [linux_tar; mac_tar].
Definition old_release : release := Release "v0.9.0" [linux_tar].

(** The API: one page with the two releases, then empty pages. *)
Definition one_page (page : Z) : reply :=
  if page =? 1 then Response 200 (Some [beta9_assets; old_release])
  else Response 200 (Some []).

Definition june2_clock : clock :=
  Clock "2025-06-02T09:00:00" "2025-06-02" "2025-06-02T09:00:01" "2025-06-02".

(** A directory without the three files. *)
Definition fresh : files := Files None None None.

(** The directory after the first run. *)
Definition after_first_run : files :=
  match run one_page 10 june2_clock fresh with
  | Some (fs', _) => fs'
  | None => fresh
  end.

(** [n] nines in front of [rest]. *)
Fixpoint nines (n : nat) (rest : string) : string :=
  match n with
  | O => rest
  | S n' => String "9" (nines n' rest)
  end.

(** A version whose major has 4301 digits. *)
Definition long_major : string := String "v" (nines 4301 ".0.0").

(** A parser that accepts every date string as it is. *)
Definition any_date (s : string) : option string := Some s.


End RunExamples.

(** * Facts about the string helpers *)

Section SpanFacts.
Variable p : ascii -> bool.

Lemma span_forallb (s a b : string) :
  PyStr.span p s = (a, b) -> PyStr.forallb p a = true.
Proof.
  revert a b. induction s as [|c s IH]; simpl; intros a b H.
  - inversion H; reflexivity.
  - destruct (p c) eqn:Hc.
    + destruct (PyStr.span p s) as [a' b'] eqn:Hs.
      inversion H; subst; simpl. rewrite Hc. exact (IH a' b eq_refl).
    + inversion H; reflexivity.
Qed.

Lemma span_append (s a b : string) :
  PyStr.span p s = (a, b) -> s = String.append a b.
Proof.
  revert a b. induction s as [|c s IH]; simpl; intros a b H.
  - inversion H; reflexivity.
  - destruct (p c) eqn:Hc.
    + destruct (PyStr.span p s) as [a' b'] eqn:Hs.
      inversion H; subst.
      change (String c s = String c (String.append a' b)).
      f_equal. exact (IH a' b eq_refl).
    + inversion H; reflexivity.
Qed.

Lemma span_stops (s a b : string) :
  PyStr.span p s = (a, b) -> PyStr.stops p b = true.
Proof.
  revert a b. induction s as [|c s IH]; simpl; intros a b H.
  - inversion H; reflexivity.
  - destruct (p c) eqn:Hc.
    + destruct (PyStr.span p s) as [a' b'] eqn:Hs.
      inversion H; subst. exact (IH a' b eq_refl).
    + inversion H; subst. simpl. now rewrite Hc.
Qed.

(** A run of [p] followed by something [p] stops at is split there. *)
Lemma span_app_stop (a rest : string) :
  PyStr.forallb p a = true -> PyStr.stops p rest = true ->
  PyStr.span p (String.append a rest) = (a, rest).
Proof.
  intros Ha Hrest. induction a as [|c a IH].
  - change (PyStr.span p rest = (EmptyString, rest)).
    destruct rest as [|c rest]; simpl in *; [reflexivity|].
    destruct (p c); [discriminate | reflexivity].
  - simpl in Ha. apply andb_prop in Ha as [Hc Ha].
    change (PyStr.span p (String c (String.append a rest))
            = (String c a, rest)).
    simpl. rewrite Hc, (IH Ha). reflexivity.
Qed.
End SpanFacts.

(** * Facts about parse_semver *)

Section SemverFacts.
Import Semver.

Lemma digits1_digit_string (s d r : string) :
  digits1 s = Some (d, r) -> digit_string d.
Proof.
  unfold digits1. destruct (PyStr.span is_digit s) as [a b] eqn:Hs.
  destruct (PyStr.is_empty a) eqn:He; [discriminate|].
  intros H; inversion H; subst. split; [exact He|].
  eapply span_forallb; eassumption.
Qed.

Lemma int_acc_digits (d : string) :
  PyStr.forallb is_digit d = true -> forall acc, is_Some (int_acc acc d).
Proof.
  induction d as [|c d IH]; simpl; intros H acc.
  - eexists; reflexivity.
  - apply andb_prop in H as [Hc Hd]. rewrite Hc. apply IH, Hd.
Qed.

(** [int] does not raise on what [\d+] captured, up to the limit. *)
Lemma py_int_digit_string (d : string) :
  digit_string d -> within_limit d -> is_Some (py_int d).
Proof.
  intros [He Hd] Hl. unfold py_int, within_limit in *. rewrite He.
  destruct (Nat.ltb_spec max_str_digits (String.length d)); [lia|].
  apply int_acc_digits, Hd.
Qed.

(** Above the limit it raises. *)
Lemma py_int_within (d : string) : is_Some (py_int d) -> within_limit d.
Proof.
  unfold py_int, within_limit.
  destruct (PyStr.is_empty d); [intros [x Hx]; discriminate|].
  destruct (Nat.ltb_spec max_str_digits (String.length d));
    [intros [x Hx]; discriminate | intros _; assumption].
Qed.

Lemma match_num_groups (s : string) (n : option string) :
  match_num s = Some n -> forall d, n = Some d -> digit_string d.
Proof.
  unfold match_num. destruct (at_dollar s).
  - intros H d Hd. congruence.
  - destruct (expect "." s) as [r|]; simpl; [|discriminate].
    destruct (digits1 r) as [[d' r']|] eqn:Hd'; simpl; [|discriminate].
    destruct (at_dollar r'); [|discriminate].
    intros [= <-] d [= <-].
    eapply digits1_digit_string; eassumption.
Qed.

Lemma match_pre_groups (s : string) (p n : option string) :
  match_pre s = Some (p, n) ->
  (forall l, p = Some l -> PyStr.is_empty l = false) /\
  (forall d, n = Some d -> digit_string d) /\
  (p = None -> n = None).
Proof.
  unfold match_pre. destruct (at_dollar s).
  - intros H; inversion H; subst. repeat split; congruence.
  - destruct (expect "-" s) as [r|]; simpl; [|discriminate].
    destruct (PyStr.span is_label_char r) as [l r'] eqn:Hl.
    destruct (PyStr.is_empty l) eqn:He; [discriminate|].
    destruct (match_num r') as [n'|] eqn:Hn; simpl; [|discriminate].
    intros [= <- <-]. split; [|split].
    + intros l' [= <-]. exact He.
    + eapply match_num_groups; eassumption.
    + discriminate.
Qed.

(** The shape of the groups of a match. *)
Lemma re_match_groups (s : string) (m : groups) :
  re_match s = Some m ->
  digit_string (g_major m) /\ digit_string (g_minor m) /\
  digit_string (g_patch m) /\
  (forall l, g_pre m = Some l -> PyStr.is_empty l = false) /\
  (forall d, g_num m = Some d -> digit_string d) /\
  (g_pre m = None -> g_num m = None).
Proof.
  unfold re_match.
  destruct (digits1 s) as [[a r1]|] eqn:Ha; simpl; [|discriminate].
  destruct (expect "." r1) as [r1'|]; simpl; [|discriminate].
  destruct (digits1 r1') as [[b r2]|] eqn:Hb; simpl; [|discriminate].
  destruct (expect "." r2) as [r2'|]; simpl; [|discriminate].
  destruct (digits1 r2') as [[c r3]|] eqn:Hc; simpl; [|discriminate].
  destruct (match_pre r3) as [[p n]|] eqn:Hp; simpl; [|discriminate].
  intros H; inversion H; subst; simpl.
  apply digits1_digit_string in Ha, Hb, Hc.
  apply match_pre_groups in Hp. tauto.
Qed.

(** ** The matcher against the grammar of the pattern *)

Lemma at_dollar_iff (s : string) : at_dollar s = true <-> opt_newline s.
Proof.
  unfold at_dollar, opt_newline. destruct s as [|c [|c' s]].
  - intuition.
  - rewrite Ascii.eqb_eq. split.
    + intros ->. right. reflexivity.
    + intros [H | H]; [discriminate | now injection H].
  - split; [discriminate | intros [H | H]; discriminate].
Qed.

Lemma opt_newline_stops (p : ascii -> bool) (e : string) :
  p "010"%char = false -> opt_newline e -> PyStr.stops p e = true.
Proof. intros Hp [-> | ->]; simpl; [reflexivity | now rewrite Hp]. Qed.

Lemma digits1_app (d rest : string) :
  digit_string d -> PyStr.stops is_digit rest = true ->
  digits1 (String.append d rest) = Some (d, rest).
Proof.
  intros [He Hd] Hrest. unfold digits1.
  rewrite (span_app_stop is_digit d rest Hd Hrest). now rewrite He.
Qed.

Lemma digits1_inv (s d r : string) :
  digits1 s = Some (d, r) ->
  digit_string d /\ s = String.append d r.
Proof.
  intros H. split; [eapply digits1_digit_string; eassumption|].
  unfold digits1 in H. destruct (PyStr.span is_digit s) as [a b] eqn:Hs.
  destruct (PyStr.is_empty a); [discriminate|]. injection H as -> ->.
  eapply span_append; eassumption.
Qed.

Lemma expect_inv (c : ascii) (s r : string) :
  expect c s = Some r <-> s = String c r.
Proof.
  unfold expect. destruct s as [|a s].
  - split; discriminate.
  - destruct (Ascii.eqb_spec a c) as [->|Hne]; split.
    + now intros [= ->].
    + now intros [= ->].
    + discriminate.
    + intros [= -> ->]. contradiction.
Qed.

Lemma at_dollar_nonempty (c : ascii) (d e : string) :
  PyStr.is_empty d = false -> at_dollar (String c (String.append d e)) = false.
Proof. destruct d as [|x d]; [discriminate | reflexivity]. Qed.

Lemma expect_cons (c : ascii) (s : string) : expect c (String c s) = Some s.
Proof. unfold expect. now rewrite Ascii.eqb_refl. Qed.

Lemma match_num_iff (s : string) (n : option string) :
  match_num s = Some n <-> num_tail s n.
Proof.
  unfold match_num. split.
  - destruct (at_dollar s) eqn:Hs.
    + intros [= <-]. constructor. apply at_dollar_iff, Hs.
    + destruct (expect "." s) as [r|] eqn:Hr; simpl; [|discriminate].
      apply expect_inv in Hr as ->.
      destruct (digits1 r) as [[d r']|] eqn:Hd; simpl; [|discriminate].
      destruct (at_dollar r') eqn:Hr'; [|discriminate].
      intros [= <-]. apply digits1_inv in Hd as [Hd ->].
      constructor; [exact Hd | apply at_dollar_iff, Hr'].
  - intros [e He | d e Hd He].
    + apply at_dollar_iff in He. now rewrite He.
    + rewrite (at_dollar_nonempty _ d e (proj1 Hd)), expect_cons.
      cbn [mbind option_bind].
      rewrite (digits1_app d e Hd (opt_newline_stops _ e eq_refl He)).
      cbn [mbind option_bind].
      apply at_dollar_iff in He. now rewrite He.
Qed.

Lemma num_tail_stops (t : string) (n : option string) :
  num_tail t n -> PyStr.stops is_label_char t = true.
Proof.
  intros [e He | d e _ _]; [|reflexivity].
  apply opt_newline_stops; [reflexivity | exact He].
Qed.

Lemma match_pre_iff (s : string) (p n : option string) :
  match_pre s = Some (p, n) <-> pre_tail s p n.
Proof.
  unfold match_pre. split.
  - destruct (at_dollar s) eqn:Hs.
    + intros [= <- <-]. constructor. apply at_dollar_iff, Hs.
    + destruct (expect "-" s) as [r|] eqn:Hr; simpl; [|discriminate].
      apply expect_inv in Hr as ->.
      destruct (PyStr.span is_label_char r) as [l r'] eqn:Hl.
      destruct (PyStr.is_empty l) eqn:He; [discriminate|].
      destruct (match_num r') as [n'|] eqn:Hn; simpl; [|discriminate].
      intros [= <- <-]. rewrite (span_append _ _ _ _ Hl).
      constructor; [|apply match_num_iff, Hn].
      split; [exact He | eapply span_forallb; eassumption].
  - intros [e He | l t n' [Hl1 Hl2] Ht].
    + apply at_dollar_iff in He. now rewrite He.
    + rewrite (at_dollar_nonempty _ l t Hl1), expect_cons.
      cbn [mbind option_bind].
      rewrite (span_app_stop is_label_char l t Hl2 (num_tail_stops t n' Ht)).
      rewrite Hl1. apply match_num_iff in Ht. now rewrite Ht.
Qed.

Lemma pre_tail_stops (t : string) (p n : option string) :
  pre_tail t p n -> PyStr.stops is_digit t = true.
Proof.
  intros [e He | l t' n' _ _]; [|reflexivity].
  apply opt_newline_stops; [reflexivity | exact He].
Qed.

(** The greedy matcher accepts exactly the strings of the pattern, and
    captures the groups the pattern gives them. *)
Lemma re_match_iff (s : string) (m : groups) :
  re_match s = Some m <-> in_pattern s m.
Proof.
  unfold re_match, in_pattern. split.
  - destruct (digits1 s) as [[a r1]|] eqn:Ha; simpl; [|discriminate].
    destruct (expect "." r1) as [r1'|] eqn:E1; simpl; [|discriminate].
    destruct (digits1 r1') as [[b r2]|] eqn:Hb; simpl; [|discriminate].
    destruct (expect "." r2) as [r2'|] eqn:E2; simpl; [|discriminate].
    destruct (digits1 r2') as [[c r3]|] eqn:Hc; simpl; [|discriminate].
    destruct (match_pre r3) as [[p n]|] eqn:Hp; simpl; [|discriminate].
    intros [= <-]. simpl.
    apply digits1_inv in Ha as [Ha ->]. apply expect_inv in E1 as ->.
    apply digits1_inv in Hb as [Hb ->]. apply expect_inv in E2 as ->.
    apply digits1_inv in Hc as [Hc ->]. apply match_pre_iff in Hp.
    split; [exact Ha|]. split; [exact Hb|]. split; [exact Hc|].
    exists r3. split; [exact Hp | reflexivity].
  - destruct m as [a b c p n]. simpl.
    intros (Ha & Hb & Hc & t & Ht & ->).
    rewrite (digits1_app a (String "." _) Ha eq_refl). cbn [mbind option_bind].
    rewrite expect_cons. cbn [mbind option_bind].
    rewrite (digits1_app b (String "." _) Hb eq_refl). cbn [mbind option_bind].
    rewrite expect_cons. cbn [mbind option_bind].
    rewrite (digits1_app c t Hc (pre_tail_stops t p n Ht)).
    cbn [mbind option_bind].
    apply match_pre_iff in Ht. now rewrite Ht.
Qed.

(** The key of a string that matches the pattern, when a key comes back:
    the digit groups were within the limit. *)
Lemma parse_semver_match_inv (s : string) (m : groups) (k : key) :
  re_match (PyStr.lstrip "v" s) = Some m ->
  parse_semver s = Some k ->
  groups_within_limit m /\
  exists major minor patch num,
    k = Key (PInt major) minor patch
            (match g_pre m with Some _ => 0 | None => 1 end)
            (default EmptyString (g_pre m)) num.
Proof.
  intros Hm. unfold parse_semver. rewrite Hm.
  destruct (re_match_groups _ _ Hm) as (H1 & H2 & H3 & H4 & H5 & _).
  destruct (py_int (g_major m)) as [major|] eqn:E1; [|discriminate].
  destruct (py_int (g_minor m)) as [minor|] eqn:E2; [|discriminate].
  destruct (py_int (g_patch m)) as [patch|] eqn:E3; [|discriminate].
  cbn [mbind option_bind].
  assert (Hprio : (if PyStr.is_empty (default EmptyString (g_pre m))
                   then 1 else 0)
                  = match g_pre m with Some _ => 0 | None => 1 end).
  { destruct (g_pre m) as [l|] eqn:Hl; [|reflexivity].
    simpl. now rewrite (H4 l eq_refl). }
  rewrite Hprio.
  assert (L1 : within_limit (g_major m)) by (apply py_int_within; rewrite E1; eauto).
  assert (L2 : within_limit (g_minor m)) by (apply py_int_within; rewrite E2; eauto).
  assert (L3 : within_limit (g_patch m)) by (apply py_int_within; rewrite E3; eauto).
  destruct (g_num m) as [d|] eqn:Hd.
  - destruct (H5 d eq_refl) as [He Hds]. rewrite He.
    destruct (py_int d) as [num|] eqn:E4; [|discriminate].
    cbn [mbind option_bind]. intros [= <-]. split.
    + split; [exact L1|]. split; [exact L2|]. split; [exact L3|].
      intros d' Hd'. assert (d' = d) as -> by congruence.
      apply py_int_within. rewrite E4. eauto.
    + eauto.
  - cbn [mbind option_bind]. intros [= <-]. split.
    + split; [exact L1|]. split; [exact L2|]. split; [exact L3|].
      intros d' Hd'. congruence.
    + eauto.
Qed.

(** A string that matches with digit groups within the limit has a key. *)
Lemma parse_semver_match (s : string) (m : groups) :
  re_match (PyStr.lstrip "v" s) = Some m ->
  groups_within_limit m ->
  exists major minor patch num,
    parse_semver s =
      Some (Key (PInt major) minor patch
                (match g_pre m with Some _ => 0 | None => 1 end)
                (default EmptyString (g_pre m)) num).
Proof.
  intros Hm (L1 & L2 & L3 & L4). unfold parse_semver. rewrite Hm.
  destruct (re_match_groups _ _ Hm) as (H1 & H2 & H3 & H4 & H5 & _).
  destruct (py_int_digit_string _ H1 L1) as [major ->].
  destruct (py_int_digit_string _ H2 L2) as [minor ->].
  destruct (py_int_digit_string _ H3 L3) as [patch ->].
  cbn [mbind option_bind].
  assert (Hprio : (if PyStr.is_empty (default EmptyString (g_pre m))
                   then 1 else 0)
                  = match g_pre m with Some _ => 0 | None => 1 end).
  { destruct (g_pre m) as [l|] eqn:Hl; [|reflexivity].
    simpl. now rewrite (H4 l eq_refl). }
  rewrite Hprio.
  destruct (g_num m) as [d|] eqn:Hd.
  - destruct (H5 d eq_refl) as [He Hds]. rewrite He.
    destruct (py_int_digit_string d (conj He Hds) (L4 d eq_refl)) as [num ->].
    cbn [mbind option_bind]. eauto.
  - cbn [mbind option_bind]. eauto.
Qed.

(** The key of a string that does not match. *)
Lemma parse_semver_fallback (s : string) :
  parsable s = false ->
  parse_semver s = Some (Key PInf 0 0 0 (PyStr.lstrip "v" s) 0).
Proof.
  unfold parsable, parse_semver.
  destruct (re_match (PyStr.lstrip "v" s)); [discriminate|reflexivity].
Qed.

Lemma parse_semver_parsable (s : string) (k : key) :
  parsable s = true -> parse_semver s = Some k ->
  exists major minor patch prio text num,
    k = Key (PInt major) minor patch prio text num.
Proof.
  unfold parsable.
  destruct (re_match (PyStr.lstrip "v" s)) as [m|] eqn:Hm; [|discriminate].
  intros _ Hk.
  destruct (parse_semver_match_inv s m k Hm Hk) as (_ & a & b & c & n & H).
  eauto 8.
Qed.

Lemma pynum_compare_refl (a : pynum) : pynum_compare a a = Eq.
Proof. destruct a; simpl; [apply Z.compare_refl|reflexivity]. Qed.

End SemverFacts.

(** * The version ordering *)

Section SemverOrder.
Import Semver.

(** C1. Under the order of the keys of [parse_semver],
    "v1.0.0-beta.2" is strictly before "v1.0.0-beta.10", which is strictly
    before "v1.0.0"; and whenever a string matches the pattern with a
    prerelease label, its key is strictly below the key of every string
    that matches without one and has the same major, minor and patch. *)
Theorem prerelease_sorts_before_stable :
  sorts_before "v1.0.0-beta.2" "v1.0.0-beta.10" = true /\
  sorts_before "v1.0.0-beta.10" "v1.0.0" = true /\
  forall (s t : string) (ks kt : key),
    has_prerelease s = true ->
    is_stable t = true ->
    parse_semver s = Some ks ->
    parse_semver t = Some kt ->
    version_core ks = version_core kt ->
    key_lt ks kt = true /\ key_lt kt ks = false.
Proof.
  split; [reflexivity|]. split; [reflexivity|].
  intros s t ks kt Hs Ht Hks Hkt Hcore.
  unfold has_prerelease in Hs. unfold is_stable in Ht.
  destruct (re_match (PyStr.lstrip "v" s)) as [ms|] eqn:Hms; [|discriminate].
  destruct (re_match (PyStr.lstrip "v" t)) as [mt|] eqn:Hmt; [|discriminate].
  destruct (parse_semver_match_inv s ms ks Hms Hks)
    as (_ & a & b & c & n & Hs').
  destruct (parse_semver_match_inv t mt kt Hmt Hkt)
    as (_ & a' & b' & c' & n' & Ht').
  destruct (g_pre ms) as [l|]; [|discriminate].
  destruct (g_pre mt); [discriminate|].
  subst ks kt.
  unfold version_core in Hcore; simpl in Hcore.
  injection Hcore as -> -> ->.
  unfold key_lt, key_compare; simpl.
  rewrite !Z.compare_refl. simpl. split; reflexivity.
Qed.

Lemma prerelease_sorts_before_stable_witness :
  has_prerelease "v1.0.0-beta.2" = true /\
  is_stable "v1.0.0" = true /\
  key_lt (Key (PInt 1) 0 0 0 "beta" 2) (Key (PInt 1) 0 0 1 "" 0) = true.
Proof.
  split; [reflexivity|]. split; [reflexivity|].
  destruct prerelease_sorts_before_stable as (_ & _ & H).
  apply (H "v1.0.0-beta.2" "v1.0.0"
           (Key (PInt 1) 0 0 0 "beta" 2) (Key (PInt 1) 0 0 1 "" 0));
    reflexivity.
Defined.

(** C7, as the code has it. [parse_semver] returns a key for every
    string that does not match the pattern, and for a string that matches
    exactly when its digit groups have at most 4300 digits: on a longer
    one [int] raises. The key of a string that does not match is strictly
    above every key returned for a string that matches; and two strings
    that do not match are ordered by their text with the leading "v"
    characters removed. *)
Theorem parse_semver_keys_fallback_last :
  (forall s : string, parsable s = false -> is_Some (parse_semver s)) /\
  (forall (s : string) (m : groups),
      re_match (PyStr.lstrip "v" s) = Some m ->
      (is_Some (parse_semver s) <-> groups_within_limit m)) /\
  (forall s t : string,
      parsable s = true -> is_Some (parse_semver s) -> parsable t = false ->
      sorts_before s t = true /\ sorts_before t s = false) /\
  (forall s t : string,
      parsable s = false -> parsable t = false ->
      sorts_before s t
      = PyStr.lt (PyStr.lstrip "v" s) (PyStr.lstrip "v" t)).
Proof.
  split; [|split; [|split]].
  - intros s Hp. rewrite (parse_semver_fallback s Hp). eexists; reflexivity.
  - intros s m Hm. split.
    + intros [k Hk]. apply (parse_semver_match_inv s m k Hm Hk).
    + intros Hl. destruct (parse_semver_match s m Hm Hl) as (a & b & c & n & ->).
      eexists; reflexivity.
  - intros s t Hs [k Hk] Ht.
    destruct (parse_semver_parsable s k Hs Hk) as (a & b & c & p & x & n & ->).
    unfold sorts_before.
    rewrite Hk, (parse_semver_fallback t Ht). split; reflexivity.
  - intros s t Hs Ht. unfold sorts_before.
    rewrite (parse_semver_fallback s Hs), (parse_semver_fallback t Ht).
    unfold key_lt, key_compare, PyStr.lt, String.ltb; simpl.
    destruct (String.compare _ _); reflexivity.
Qed.

Lemma parse_semver_keys_fallback_last_witness :
  sorts_before "v1.0.0" "latest" = true /\
  sorts_before "nightly" "vlatest" = PyStr.lt "nightly" "latest".
Proof.
  destruct parse_semver_keys_fallback_last as (_ & _ & H3 & H4). split.
  - apply (H3 "v1.0.0" "latest");
      [reflexivity | eexists; reflexivity | reflexivity].
  - apply (H4 "nightly" "vlatest"); reflexivity.
Defined.

(** C7 as stated fails twice. "v" followed by 4301 nines and ".0.0"
    matches the pattern and [parse_semver] raises on it. And neither "va"
    nor "b" matches the pattern, "b" is before "va" as literal text, and
    yet the key of "va" is strictly before the key of "b". *)
Lemma parse_semver_raises_and_orders_stripped :
  parsable RunExamples.long_major = true /\
  parse_semver RunExamples.long_major = None /\
  parsable "va" = false /\ parsable "b" = false /\
  PyStr.lt "b" "va" = true /\ PyStr.lt "va" "b" = false /\
  sorts_before "va" "b" = true /\ sorts_before "b" "va" = false.
Proof. repeat split; vm_compute; reflexivity. Qed.

(** C7 as stated fails: neither "va" nor "b" matches the pattern, "b" is
    before "va" as literal text, and yet the key of "va" is strictly
    before the key of "b". *)
Lemma unparsable_order_is_not_literal :
  parsable "va" = false /\ parsable "b" = false /\
  PyStr.lt "b" "va" = true /\ PyStr.lt "va" "b" = false /\
  sorts_before "va" "b" = true /\ sorts_before "b" "va" = false.
Proof. repeat split; reflexivity. Qed.

End SemverOrder.

(** * fetch_releases *)

Section Fetch.
Import Data Tracker.
Variable api : Z -> reply.

Lemma page_range_empty (a : Z) : page_range a (a - 1) = [].
Proof. unfold page_range. replace (a - 1 + 1 - a) with 0 by lia. reflexivity. Qed.

Lemma page_range_cons (a b : Z) :
  a <= b -> page_range a b = a :: page_range (a + 1) b.
Proof.
  intros H. unfold page_range.
  replace (Z.to_nat (b + 1 - a)) with (S (Z.to_nat (b + 1 - (a + 1)))) by lia.
  simpl. f_equal; [lia|].
  rewrite <- seq_shift, map_map. apply map_ext. intros i. lia.
Qed.

Lemma page_range_single (a : Z) : page_range a a = [a].
Proof.
  rewrite page_range_cons by lia.
  replace (page_range (a + 1) a) with (page_range (a + 1) (a + 1 - 1))
    by (f_equal; lia).
  now rewrite page_range_empty.
Qed.

Lemma page_range_bounds (a b p : Z) : In p (page_range a b) -> a <= p <= b.
Proof.
  unfold page_range. rewrite in_map_iff. intros (i & <- & Hi).
  apply in_seq in Hi. lia.
Qed.

(** Past the ceiling the loop is over, whatever the fuel. *)
Lemma fetch_loop_done (fuel : nat) (page : Z) (rel : list release) (log : list Z) :
  max_pages < page ->
  fetch_loop api fuel page rel log = Some (Returned rel, log).
Proof.
  intros H. destruct fuel; simpl;
    destruct (Z.leb_spec page max_pages); (reflexivity || lia).
Qed.

(** One round of the loop. *)
Lemma fetch_loop_step (fuel : nat) (page : Z) (rel : list release) (log : list Z) :
  page <= max_pages ->
  fetch_loop api (S fuel) page rel log =
    match api page with
    | ConnectionFailed => Some (Raised RequestException, log ++ [page])
    | Response status_code json =>
        if status_code =? 422 then Some (Returned rel, log ++ [page])
        else if is_error_status status_code
        then Some (Raised (HTTPError status_code), log ++ [page])
        else
          match json with
          | None => Some (Raised JSONDecodeError, log ++ [page])
          | Some [] => Some (Returned rel, log ++ [page])
          | Some page_releases =>
              fetch_loop api fuel (page + 1) (rel ++ page_releases)
                         (log ++ [page])
          end
    end.
Proof.
  intros H. simpl. destruct (Z.leb_spec page max_pages); [reflexivity|lia].
Qed.

Lemma is_error_status_spec (st : Z) :
  is_error_status st = true <-> 400 <= st < 600.
Proof. unfold is_error_status. lia. Qed.

(** The loop from any page on: it asks for [page], [page+1], ... up to
    some [last], every page before [last] was a non-empty success, and
    [last] is where it stops. *)
Lemma fetch_loop_spec (fuel : nat) :
  forall (page : Z) (rel : list release) (log : list Z),
    1 <= page <= max_pages ->
    (Z.to_nat (max_pages + 1 - page) <= fuel)%nat ->
    exists (last : Z) (res : result (list release)),
      fetch_loop api fuel page rel log
      = Some (res, log ++ page_range page last) /\
      page <= last <= max_pages /\
      (forall p, page <= p < last -> exists l, page_ok api p l) /\
      ((page_empty api last /\
        res = Returned (rel ++ collected api (page_range page (last - 1)))) \/
       (page_exhausted api last /\
        res = Returned (rel ++ collected api (page_range page (last - 1)))) \/
       (last = max_pages /\ (exists l, page_ok api last l) /\
        res = Returned (rel ++ collected api (page_range page last))) \/
       (exists e, page_failed api last e /\ res = Raised e)).
Proof.
  unfold max_pages.
  induction fuel as [|fuel IH]; intros page rel log Hp Hf; [lia|].
  rewrite fetch_loop_step by (unfold max_pages; lia).
  assert (Hstop : forall res,
    (page_empty api page /\ res = Returned rel) \/
    (page_exhausted api page /\ res = Returned rel) \/
    (exists e, page_failed api page e /\ res = Raised e) ->
    exists last res',
      Some (res, log ++ [page]) = Some (res', log ++ page_range page last) /\
      page <= last <= 10 /\
      (forall p, page <= p < last -> exists l, page_ok api p l) /\
      ((page_empty api last /\
        res' = Returned (rel ++ collected api (page_range page (last - 1)))) \/
       (page_exhausted api last /\
        res' = Returned (rel ++ collected api (page_range page (last - 1)))) \/
       (last = 10 /\ (exists l, page_ok api last l) /\
        res' = Returned (rel ++ collected api (page_range page last))) \/
       (exists e, page_failed api last e /\ res' = Raised e))).
  { intros res H. exists page, res.
    rewrite page_range_single, page_range_empty. simpl. rewrite app_nil_r.
    split; [reflexivity|]. split; [lia|]. split; [intros; lia|].
    destruct H as [H|[H|H]]; auto. }
  destruct (api page) as [|st json] eqn:Hapi.
  { apply Hstop. right; right. exists RequestException. split; [|reflexivity].
    left. auto. }
  destruct (Z.eqb_spec st 422) as [->|Hne].
  { apply Hstop. right; left. split; [|reflexivity]. exists json. exact Hapi. }
  destruct (is_error_status st) eqn:Herr.
  { apply Hstop. right; right. exists (HTTPError st). split; [|reflexivity].
    right; left. exists st, json. apply is_error_status_spec in Herr. auto. }
  assert (Hok : ~ (400 <= st < 600)).
  { rewrite <- is_error_status_spec. congruence. }
  destruct json as [[|r l]|].
  - apply Hstop. left. split; [|reflexivity]. exists st. auto.
  - assert (Hpage : page_ok api page (r :: l)).
    { exists st. repeat split; auto; discriminate. }
    assert (Hbody : body_of (api page) = r :: l) by (rewrite Hapi; reflexivity).
    destruct (Z.eq_dec page 10) as [->|Hlt].
    + rewrite fetch_loop_done by (unfold max_pages; lia).
      exists 10, (Returned (rel ++ r :: l)).
      rewrite page_range_single. split; [reflexivity|].
      split; [lia|]. split; [intros; lia|].
      right; right; left. split; [reflexivity|]. split; [eauto|].
      unfold collected; simpl. rewrite Hbody, app_nil_r. reflexivity.
    + destruct (IH (page + 1) (rel ++ r :: l) (log ++ [page]))
        as (last & res & Hrun & Hlast & Hbefore & Hcase); [lia|lia|].
      exists last, res. rewrite Hrun.
      split.
      { rewrite (page_range_cons page last) by lia.
        rewrite <- app_assoc. reflexivity. }
      split; [lia|].
      split.
      { intros p Hp'. destruct (Z.eq_dec p page) as [->|]; [eauto|].
        apply Hbefore. lia. }
      assert (Hcoll : forall b, page <= b ->
        (rel ++ r :: l) ++ collected api (page_range (page + 1) b)
        = rel ++ collected api (page_range page b)).
      { intros b Hb. rewrite (page_range_cons page b) by lia.
        unfold collected; simpl. rewrite Hbody, <- app_assoc. reflexivity. }
      destruct Hcase as [[H ->]|[[H ->]|[(-> & H & ->)|H]]].
      * left. split; [exact H|]. rewrite Hcoll by lia. reflexivity.
      * right; left. split; [exact H|]. rewrite Hcoll by lia. reflexivity.
      * right; right; left. split; [reflexivity|]. split; [exact H|].
        rewrite Hcoll by lia. reflexivity.
      * right; right; right. exact H.
  - apply Hstop. right; right. exists JSONDecodeError. split; [|reflexivity].
    right; right. exists st. auto.
Qed.

(** C2. With fuel for ten rounds [fetch_releases] ends. It asks for the
    pages 1, 2, ..., [last], in this order, with [last] at most the
    ceiling 10; every page before [last] was a non-empty success; and
    [last] is the first empty page, or the first page answered 422, or
    page 10, or the first failed request. In the first three cases it
    returns the releases of the non-empty pages it read, in order; only
    in the last one it raises. *)
Theorem fetch_releases_pagination (fuel : nat) :
  (10 <= fuel)%nat ->
  exists (last : Z) (res : result (list release)),
    fetch_releases api fuel = Some (res, page_range 1 last) /\
    1 <= last <= max_pages /\
    (forall p, In p (page_range 1 last) -> 1 <= p <= max_pages) /\
    (forall p, 1 <= p < last -> exists l, page_ok api p l) /\
    ((page_empty api last /\
      res = Returned (collected api (page_range 1 (last - 1)))) \/
     (page_exhausted api last /\
      res = Returned (collected api (page_range 1 (last - 1)))) \/
     (last = max_pages /\ (exists l, page_ok api last l) /\
      res = Returned (collected api (page_range 1 last))) \/
     (exists e, page_failed api last e /\ res = Raised e)).
Proof.
  intros Hf.
  destruct (fetch_loop_spec fuel 1 [] [])
    as (last & res & Hrun & Hlast & Hbefore & Hcase);
    [unfold max_pages; lia | unfold max_pages; simpl; lia|].
  exists last, res. split; [exact Hrun|]. split; [exact Hlast|].
  split; [|split; [exact Hbefore | exact Hcase]].
  intros p Hin. apply page_range_bounds in Hin. lia.
Qed.

End Fetch.

Lemma fetch_releases_pagination_witness :
  Tracker.fetch_releases Examples.two_pages 10
  = Some (Tracker.Returned [Examples.beta9; Examples.beta9], [1; 2; 3]) /\
  exists (last : Z) (res : Tracker.result (list Data.release)),
    Tracker.fetch_releases Examples.two_pages 10
    = Some (res, Tracker.page_range 1 last) /\
    1 <= last <= Tracker.max_pages.
Proof.
  split; [reflexivity|].
  destruct (fetch_releases_pagination Examples.two_pages 10 ltac:(lia))
    as (last & res & Hrun & Hlast & _).
  exists last, res. split; assumption.
Defined.

(** * The order of Python strings, and sorting *)

Section StringOrder.

Lemma string_compare_refl (s : string) : String.compare s s = Eq.
Proof.
  induction s as [|c s IH]; simpl; [reflexivity|].
  unfold Ascii.compare. rewrite N.compare_refl. exact IH.
Qed.

Lemma string_compare_lt_trans (a : string) :
  forall b c : string,
    String.compare a b = Lt -> String.compare b c = Lt ->
    String.compare a c = Lt.
Proof.
  induction a as [|x a IH]; intros [|y b] [|z c]; simpl;
    try discriminate; try reflexivity.
  unfold Ascii.compare.
  destruct (N.compare_spec (N_of_ascii x) (N_of_ascii y));
    destruct (N.compare_spec (N_of_ascii y) (N_of_ascii z));
    destruct (N.compare_spec (N_of_ascii x) (N_of_ascii z));
    try discriminate; try reflexivity; try lia.
  apply IH.
Qed.

Lemma le_iff (a b : string) :
  PyStr.le a b = true <-> String.compare a b = Lt \/ a = b.
Proof.
  unfold PyStr.le, String.leb. split.
  - destruct (String.compare a b) eqn:H; try discriminate; auto.
    right. apply String.compare_eq_iff, H.
  - intros [-> | ->]; [reflexivity|]. now rewrite string_compare_refl.
Qed.

Lemma le_refl (a : string) : PyStr.le a a = true.
Proof. apply le_iff; auto. Qed.

Lemma le_trans (a b c : string) :
  PyStr.le a b = true -> PyStr.le b c = true -> PyStr.le a c = true.
Proof.
  rewrite !le_iff. intros [H1 | ->] [H2 | ->]; auto.
  left. eapply string_compare_lt_trans; eassumption.
Qed.

Lemma le_total (a b : string) : PyStr.le a b = true \/ PyStr.le b a = true.
Proof. apply String.leb_total. Qed.

Lemma le_antisym (a b : string) :
  PyStr.le a b = true -> PyStr.le b a = true -> a = b.
Proof. apply String.leb_antisym. Qed.

End StringOrder.

Section Sorting.
Context {A : Type} (le : A -> A -> bool).
Hypothesis le_total : forall a b, le a b = true \/ le b a = true.
Hypothesis le_trans :
  forall a b c, le a b = true -> le b c = true -> le a c = true.

Lemma insert_by_In (x y : A) (l : list A) :
  In y (Py.insert_by le x l) <-> y = x \/ In y l.
Proof.
  induction l as [|z l IH]; simpl; [intuition|].
  destruct (le x z); simpl; rewrite ?IH; intuition.
Qed.

Lemma sorted_by_In (y : A) (l : list A) :
  In y (Py.sorted_by le l) <-> In y l.
Proof.
  unfold Py.sorted_by. induction l as [|x l IH]; simpl; [reflexivity|].
  rewrite insert_by_In, IH. intuition.
Qed.

Lemma insert_by_ascending (x : A) (l : list A) :
  Py.ascending le l -> Py.ascending le (Py.insert_by le x l).
Proof.
  induction l as [|z l IH]; simpl; [intuition|].
  intros [Hz Hl]. destruct (le x z) eqn:Hxz; simpl.
  - split; [|split; assumption].
    intros y [<- | Hy]; [assumption|]. eapply le_trans; eauto.
  - split; [|auto].
    intros y Hy. apply insert_by_In in Hy as [-> | Hy]; [|auto].
    destruct (le_total x z); congruence.
Qed.

Lemma sorted_by_ascending (l : list A) :
  Py.ascending le (Py.sorted_by le l).
Proof.
  unfold Py.sorted_by. induction l as [|x l IH]; simpl; [exact I|].
  apply insert_by_ascending, IH.
Qed.

Lemma ascending_last (l : list A) (m : A) :
  Py.ascending le l -> last l = Some m ->
  In m l /\ forall y, In y l -> y = m \/ le y m = true.
Proof.
  induction l as [|x l IH]; [discriminate|].
  intros [Hx Hl] Hm. destruct l as [|x' l].
  - injection Hm as ->. split; [left; reflexivity|].
    intros y [<- | []]; auto.
  - change (last (x' :: l) = Some m) in Hm.
    destruct (IH Hl Hm) as [Hin Hmax]. split; [right; exact Hin|].
    intros y [<- | Hy]; [right; apply Hx, Hin | apply Hmax, Hy].
Qed.

End Sorting.

(** * Dates as strings *)

Section DateOrder.
Import Date.
Local Open Scope N_scope.

Lemma digit_compare (a b : N) :
  a < 10 -> b < 10 -> Ascii.compare (digit a) (digit b) = N.compare a b.
Proof.
  intros Ha Hb. unfold Ascii.compare, digit.
  rewrite !N_ascii_embedding by lia.
  destruct (N.compare_spec a b), (N.compare_spec (48 + a) (48 + b));
    (reflexivity || lia).
Qed.

Lemma two_compare (a b : N) (r1 r2 : string) :
  a < 100 -> b < 100 ->
  String.compare (two a r1) (two b r2)
  = Py.lex (N.compare a b) (String.compare r1 r2).
Proof.
  intros Ha Hb. unfold two. simpl.
  pose proof (N.div_mod' a 10) as Ea. pose proof (N.div_mod' b 10) as Eb.
  pose proof (N.mod_lt a 10 ltac:(lia)) as Hra.
  pose proof (N.mod_lt b 10 ltac:(lia)) as Hrb.
  assert (Hqa : a / 10 < 10) by (apply N.Div0.div_lt_upper_bound; lia).
  assert (Hqb : b / 10 < 10) by (apply N.Div0.div_lt_upper_bound; lia).
  rewrite !digit_compare by assumption.
  remember (a / 10) as qa eqn:Tqa. remember (a mod 10) as ra eqn:Tra.
  remember (b / 10) as qb eqn:Tqb. remember (b mod 10) as rb eqn:Trb.
  clear Tqa Tra Tqb Trb.
  destruct (N.compare_spec qa qb), (N.compare_spec ra rb),
           (N.compare_spec a b); simpl; (reflexivity || lia).
Qed.

(** On valid dates the order of the formatted strings is the order of
    the dates. *)
Lemma strftime_compare (d1 d2 : date) :
  valid d1 -> valid d2 ->
  String.compare (strftime d1) (strftime d2) = Date.compare d1 d2.
Proof.
  intros (Hy1 & Hm1 & Hd1) (Hy2 & Hm2 & Hd2). unfold strftime, Date.compare.
  pose proof (N.div_mod' (year d1) 100) as E1.
  pose proof (N.div_mod' (year d2) 100) as E2.
  pose proof (N.mod_lt (year d1) 100 ltac:(lia)) as Hr1.
  pose proof (N.mod_lt (year d2) 100 ltac:(lia)) as Hr2.
  assert (Hq1 : year d1 / 100 < 100) by (apply N.Div0.div_lt_upper_bound; lia).
  assert (Hq2 : year d2 / 100 < 100) by (apply N.Div0.div_lt_upper_bound; lia).
  rewrite !two_compare by lia.
  change (String.compare (String "-" ?a) (String "-" ?b))
    with (String.compare a b).
  rewrite !two_compare by lia.
  change (String.compare (String "-" ?a) (String "-" ?b))
    with (String.compare a b).
  rewrite !two_compare by lia. simpl (String.compare "" "").
  remember (year d1 / 100) as q1 eqn:T1. remember (year d1 mod 100) as r1 eqn:T2.
  remember (year d2 / 100) as q2 eqn:T3. remember (year d2 mod 100) as r2 eqn:T4.
  clear T1 T2 T3 T4.
  destruct (N.compare_spec q1 q2), (N.compare_spec r1 r2),
           (N.compare_spec (year d1) (year d2)); simpl;
    try lia;
    destruct (N.compare (month d1) (month d2)),
             (N.compare (day d1) (day d2)); reflexivity.
Qed.

Lemma strftime_le (d1 d2 : date) :
  valid d1 -> valid d2 -> Date.le d1 d2 ->
  PyStr.le (strftime d1) (strftime d2) = true.
Proof.
  intros H1 H2 Hle. unfold PyStr.le, String.leb.
  rewrite strftime_compare by assumption.
  unfold Date.le in Hle. destruct (Date.compare d1 d2); congruence.
Qed.

End DateOrder.

(** * calculate_daily_changes *)

Section DailyChanges.
Import Data Tracker.

Lemma sorted_by_length {A} (le : A -> A -> bool) (l : list A) :
  length (Py.sorted_by le l) = length l.
Proof.
  unfold Py.sorted_by. induction l as [|x l IH]; simpl; [reflexivity|].
  rewrite <- IH. generalize (foldr (Py.insert_by le) [] l). intros l'.
  induction l' as [|y l' IH']; simpl; [reflexivity|].
  destruct (le x y); simpl; congruence.
Qed.

Lemma gkeys_In {V} (m : gmap string V) (k : string) :
  In k (Py.gkeys m) <-> is_Some (m !! k).
Proof.
  unfold Py.gkeys. rewrite <- list_elem_of_In, elem_of_elements.
  apply elem_of_dom.
Qed.

Lemma gkeys_empty {V} : Py.gkeys (∅ : gmap string V) = [].
Proof. unfold Py.gkeys. rewrite dom_empty_L. apply elements_empty. Qed.

(** The date the code calls [previous_date] is the greatest key. *)
Lemma previous_date_greatest (h : history) (d : string) (pd : day_data) :
  h !! d = Some pd ->
  (forall k, is_Some (h !! k) -> PyStr.le k d = true) ->
  last (Py.sorted (Py.gkeys h)) = Some d.
Proof.
  intros Hd Hmax.
  assert (Hin : In d (Py.sorted (Py.gkeys h))).
  { apply sorted_by_In, gkeys_In. eauto. }
  destruct (last (Py.sorted (Py.gkeys h))) as [m|] eqn:Hlast.
  - destruct (ascending_last PyStr.le _ m
                (sorted_by_ascending PyStr.le le_total le_trans _) Hlast)
      as [Hm Hle].
    f_equal. apply le_antisym.
    + apply Hmax, gkeys_In, (sorted_by_In PyStr.le), Hm.
    + destruct (Hle d Hin) as [-> | H]; [apply le_refl | exact H].
  - apply last_None in Hlast. rewrite Hlast in Hin. destruct Hin.
Qed.

(** What the function computes once the previous day is known. *)
Lemma calculate_daily_changes_previous
    (h : history) (d : string) (pd : day_data) (current : list stat) :
  h !! d = Some pd ->
  (forall k, is_Some (h !! k) -> PyStr.le k d = true) ->
  calculate_daily_changes (Some h) current =
    map (fun s =>
           set_daily_change s
             (download_count s
              - default 0 (build_previous_stats pd !! stat_key s)))
        current.
Proof.
  intros Hd Hmax. unfold calculate_daily_changes.
  pose proof (previous_date_greatest h d pd Hd Hmax) as Hlast.
  destruct (Nat.ltb_spec (length (Py.sorted (Py.gkeys h))) 1) as [Hlen|_].
  - destruct (Py.sorted (Py.gkeys h)); [discriminate | simpl in Hlen; lia].
  - rewrite Hlast. simpl. rewrite Hd. reflexivity.
Qed.

Lemma calculate_daily_changes_no_dates (current : list stat) :
  calculate_daily_changes (Some ∅) current = current.
Proof.
  unfold calculate_daily_changes. rewrite (gkeys_empty (V:=day_data)).
  reflexivity.
Qed.

(** The lookup is a left fold of insertions over the rows of the day. *)
Lemma build_previous_stats_fold (pd : day_data) :
  build_previous_stats pd =
    fold_left (fun (m : gmap string Z) s => <[stat_key s := download_count s]> m)
              (day_stats pd) ∅.
Proof.
  unfold build_previous_stats, day_stats, dict_stats.
  generalize (∅ : gmap string Z). induction (releases pd) as [|[k rd] rs IH];
    intros m; simpl; [reflexivity|].
  rewrite fold_left_app. apply IH.
Qed.

(** A fold of insertions answers with the last row of the key. *)
Lemma fold_insert_lookup (l : list stat) :
  forall (m : gmap string Z) (k : string),
    fold_left (fun (m : gmap string Z) s => <[stat_key s := download_count s]> m)
              l m !! k
    = match last (List.filter (fun s => String.eqb (stat_key s) k) l) with
      | Some s => Some (download_count s)
      | None => m !! k
      end.
Proof.
  induction l as [|s l IH]; intros m k; simpl; [reflexivity|].
  rewrite IH. destruct (String.eqb_spec (stat_key s) k) as [<-|Hne].
  - rewrite last_cons.
    destruct (last (List.filter _ l)); [reflexivity|].
    apply lookup_insert_eq.
  - destruct (last (List.filter _ l)); [reflexivity|].
    apply lookup_insert_ne, Hne.
Qed.

Lemma get_set_eq {V} (d : Py.dict V) (k : string) (v : V) :
  Py.get (Py.set d k v) k = Some v.
Proof.
  induction d as [|[k' v'] d IH]; simpl.
  - now rewrite String.eqb_refl.
  - destruct (String.eqb k' k) eqn:E; simpl; rewrite E; [reflexivity|exact IH].
Qed.

Lemma set_absent {V} (d : Py.dict V) (k : string) (v : V) :
  Py.get d k = None -> Py.set d k v = d ++ [(k, v)].
Proof.
  induction d as [|[k' v'] d IH]; simpl; [reflexivity|].
  destruct (String.eqb k' k); [discriminate|]. intros H. now rewrite IH.
Qed.

(** Appending a row to the assets of the release that is there. *)
Lemma dict_stats_append (d : Py.dict release_data) (k : string)
    (rd : release_data) (t : Z) (s x : stat) :
  Py.get d k = Some rd ->
  In x (dict_stats (Py.set d k (ReleaseData t (r_assets rd ++ [s]))))
  <-> x = s \/ In x (dict_stats d).
Proof.
  unfold dict_stats. induction d as [|[k' v'] d IH]; simpl; [discriminate|].
  destruct (String.eqb k' k).
  - intros [= ->]. simpl. rewrite !in_app_iff. simpl.
    intuition (subst; auto).
  - intros H. simpl. rewrite !in_app_iff, (IH H). tauto.
Qed.

Lemma group_stat_In (d : Py.dict release_data) (s x : stat) :
  In x (dict_stats (group_stat d s)) <-> x = s \/ In x (dict_stats d).
Proof.
  unfold group_stat, Py.mem.
  destruct (Py.get d (release_tag s)) as [rd|] eqn:Hget; simpl.
  - rewrite Hget. apply dict_stats_append, Hget.
  - rewrite get_set_eq.
    rewrite (dict_stats_append _ _ (ReleaseData 0 []))
      by apply get_set_eq.
    rewrite (set_absent d _ _ Hget). unfold dict_stats.
    rewrite flat_map_app, in_app_iff. simpl. tauto.
Qed.

(** Grouping keeps exactly the rows it was given. *)
Lemma make_day_data_In (stats : list stat) (x : stat) :
  In x (day_stats (make_day_data stats)) <-> In x stats.
Proof.
  unfold day_stats, make_day_data; simpl.
  assert (H : forall d, In x (dict_stats (fold_left group_stat stats d))
                        <-> In x stats \/ In x (dict_stats d)).
  { induction stats as [|s stats IH]; intros d; simpl; [tauto|].
    rewrite IH, group_stat_In. intuition. }
  rewrite H. simpl. tauto.
Qed.

Lemma same_pair_key (p r : stat) :
  same_pair p r = true -> stat_key p = stat_key r.
Proof.
  unfold same_pair, stat_key. intros H. apply andb_prop in H as [H1 H2].
  apply String.eqb_eq in H1, H2. now rewrite H1, H2.
Qed.

(** Where the key of [r] is the key of no other pair, the lookup gives
    the recorded count of the pair. *)
Lemma previous_count_recorded (pd : day_data) (r : stat) :
  (forall p, In p (day_stats pd) ->
             stat_key p = stat_key r -> same_pair p r = true) ->
  build_previous_stats pd !! stat_key r = recorded_count (day_stats pd) r.
Proof.
  intros Hkey. rewrite build_previous_stats_fold, fold_insert_lookup.
  unfold recorded_count.
  rewrite (filter_ext_in (fun s => String.eqb (stat_key s) (stat_key r))
                         (fun p => same_pair p r)).
  - rewrite lookup_empty. destruct (last _); reflexivity.
  - intros p Hp. destruct (String.eqb_spec (stat_key p) (stat_key r)) as [E|N].
    + symmetry. apply Hkey; assumption.
    + destruct (same_pair p r) eqn:Hs; [|reflexivity].
      apply same_pair_key in Hs. contradiction.
Qed.

Lemma map_lookup {A B} (f : A -> B) (l : list A) (i : nat) :
  map f l !! i = f <$> (l !! i).
Proof.
  revert i. induction l as [|x l IH]; intros [|i]; simpl; auto.
Qed.

Lemma NoDup_map_injective {A B} (f : A -> B) (l : list A) (x y : A) :
  NoDup (map f l) -> In x l -> In y l -> f x = f y -> x = y.
Proof.
  induction l as [|z l IH]; simpl; [tauto|].
  intros Hnd Hx Hy Hf. inversion Hnd as [|? ? Hnotin Hnd']; subst.
  destruct Hx as [-> | Hx], Hy as [-> | Hy]; auto.
  - exfalso. apply Hnotin. rewrite Hf. apply list_elem_of_In, in_map, Hy.
  - exfalso. apply Hnotin. rewrite <- Hf. apply list_elem_of_In, in_map, Hx.
Qed.

Lemma pair_of_key (p r : stat) :
  pair_of p = pair_of r -> stat_key p = stat_key r.
Proof. unfold pair_of, stat_key. intros [= -> ->]. reflexivity. Qed.

(** After a run that recorded [stats1] with distinct pairs and distinct
    keys, a row with a recorded pair and count finds its own count. *)
Lemma previous_count_same (stats1 : list stat) (p s : stat) :
  NoDup (map pair_of stats1) ->
  (forall a b, In a stats1 -> In b stats1 ->
               stat_key a = stat_key b -> pair_of a = pair_of b) ->
  In p stats1 -> pair_of p = pair_of s ->
  build_previous_stats (make_day_data stats1) !! stat_key s
  = Some (download_count p).
Proof.
  intros Hnd Hinj Hp Hps.
  rewrite build_previous_stats_fold, fold_insert_lookup.
  set (f := fun s0 => String.eqb (stat_key s0) (stat_key s)).
  assert (Hpf : In p (List.filter f (day_stats (make_day_data stats1)))).
  { apply filter_In. split; [apply make_day_data_In, Hp|].
    apply String.eqb_eq, pair_of_key, Hps. }
  destruct (last (List.filter f (day_stats (make_day_data stats1))))
    as [q|] eqn:Hlast.
  - apply last_Some in Hlast as [l' Hl'].
    assert (Hq : In q (List.filter f (day_stats (make_day_data stats1)))).
    { rewrite Hl'. apply in_app_iff. right. left. reflexivity. }
    apply filter_In in Hq as [Hq1 Hq2].
    apply (proj1 (make_day_data_In _ _)) in Hq1.
    apply String.eqb_eq in Hq2.
    assert (q = p) as ->; [|reflexivity].
    apply (NoDup_map_injective pair_of stats1); auto.
    apply Hinj; auto. rewrite Hq2. symmetry. apply pair_of_key, Hps.
  - apply last_None in Hlast. rewrite Hlast in Hpf. destruct Hpf.
Qed.

(** C3, as the code has it. Without a history file, and with a history
    that has no date, the rows come back as they were given, so rows
    fresh from [extract_download_stats] carry no [daily_change]. With a
    history whose keys are formatted dates, every row whose lookup key
    belongs to no other (release_tag, asset_name) pair of the
    chronologically last day gets [daily_change] = its [download_count]
    minus the count recorded for its pair under that day, 0 if there is
    none. On the run after a first run that recorded the same pairs with
    the same counts (pairs and lookup keys distinct), every row gets
    [daily_change] = 0. *)
Theorem calculate_daily_changes_spec (current : list stat) :
  calculate_daily_changes None current = current /\
  calculate_daily_changes (Some ∅) current = current /\
  (forall (now_iso : string) (rs : list release) (r : stat),
      In r (calculate_daily_changes None (extract_download_stats now_iso rs)) ->
      daily_change r = None) /\
  (forall (h : history) (last_date : Date.date) (previous : day_data),
      Date.valid last_date ->
      h !! Date.strftime last_date = Some previous ->
      (forall k, is_Some (h !! k) ->
                 exists d, Date.valid d /\ k = Date.strftime d /\
                           Date.le d last_date) ->
      forall (i : nat) (r : stat),
        current !! i = Some r ->
        (forall p, In p (day_stats previous) ->
                   stat_key p = stat_key r -> same_pair p r = true) ->
        calculate_daily_changes (Some h) current !! i
        = Some (set_daily_change r
                  (download_count r
                   - default 0 (recorded_count (day_stats previous) r)))) /\
  (forall (date1 : string) (stats1 : list stat),
      NoDup (map pair_of stats1) ->
      (forall a b, In a stats1 -> In b stats1 ->
                   stat_key a = stat_key b -> pair_of a = pair_of b) ->
      map (fun s => (pair_of s, download_count s)) current
      = map (fun s => (pair_of s, download_count s)) stats1 ->
      calculate_daily_changes
        (save_to_json date1 None (calculate_daily_changes None stats1))
        current
      = map (fun s => set_daily_change s 0) current).
Proof.
  split; [reflexivity|]. split; [apply calculate_daily_changes_no_dates|].
  split; [|split].
  - intros now_iso rs r. simpl. unfold extract_download_stats.
    rewrite in_flat_map. intros (rel & _ & Hr).
    apply in_map_iff in Hr as (a & <- & _). reflexivity.
  - intros h last_date previous Hvalid Hprev Hkeys i r Hi Hkey.
    rewrite (calculate_daily_changes_previous
               h (Date.strftime last_date) previous current Hprev).
    2:{ intros k Hk. destruct (Hkeys k Hk) as (d & Hd & -> & Hle).
        apply strftime_le; assumption. }
    rewrite map_lookup, Hi. simpl.
    rewrite (previous_count_recorded previous r Hkey). reflexivity.
  - intros date1 stats1 Hnd Hinj Hsame.
    change (save_to_json date1 None (calculate_daily_changes None stats1))
      with (Some (<[date1 := make_day_data stats1]> (∅ : history))).
    rewrite (calculate_daily_changes_previous _ date1 (make_day_data stats1)).
    + apply map_ext_in. intros s Hs. f_equal.
      assert (Hin : In (pair_of s, download_count s)
                       (map (fun s => (pair_of s, download_count s)) stats1)).
      { rewrite <- Hsame. apply (in_map (fun s => (pair_of s, download_count s))), Hs. }
      apply in_map_iff in Hin as (p & [= Htag Hname Hcount] & Hp).
      assert (Hpair : pair_of p = pair_of s)
        by (unfold pair_of; congruence).
      rewrite (previous_count_same stats1 p s Hnd Hinj Hp Hpair). simpl. lia.
    + apply lookup_insert_eq.
    + intros k [v Hk]. destruct (decide (date1 = k)) as [->|Hne];
        [apply le_refl|].
      rewrite lookup_insert_ne, lookup_empty in Hk by assumption.
      discriminate.
Qed.

(** C10. Whatever the history file, [calculate_daily_changes] returns as
    many rows as it was given, in the same order, each one with its
    timestamp, release_tag, asset_name, download_count, asset_size and
    asset_url as they were: a row comes back as it was or with
    [daily_change] set. *)
Theorem calculate_daily_changes_frame
    (file : option history) (current : list stat) :
  length (calculate_daily_changes file current) = length current /\
  map row_fields (calculate_daily_changes file current)
  = map row_fields current /\
  forall (i : nat) (r : stat),
    current !! i = Some r ->
    exists r', calculate_daily_changes file current !! i = Some r' /\
               (r' = r \/ exists v, r' = set_daily_change r v).
Proof.
  assert (Hcases :
    calculate_daily_changes file current = current \/
    exists g, calculate_daily_changes file current
              = map (fun s => set_daily_change s (g s)) current).
  { unfold calculate_daily_changes. destruct file as [h|]; [|auto].
    destruct (length _ <? 1)%nat; [auto|].
    destruct (last _ ≫= _) as [pd|]; [|auto].
    right. eexists (fun s => _). reflexivity. }
  destruct Hcases as [-> | [g ->]].
  - split; [reflexivity|]. split; [reflexivity|]. eauto.
  - split; [apply length_map|]. split.
    + rewrite map_map. reflexivity.
    + intros i r Hi. rewrite map_lookup, Hi. simpl. eauto.
Qed.

End DailyChanges.

Lemma calculate_daily_changes_frame_witness :
  exists r',
    Tracker.calculate_daily_changes
      (Some Examples.two_days) [Examples.row "v1.0.0" "nargo.tar.gz" 12] !! 0%nat
    = Some r' /\
    (r' = Examples.row "v1.0.0" "nargo.tar.gz" 12 \/
     exists v, r' = Data.set_daily_change
                      (Examples.row "v1.0.0" "nargo.tar.gz" 12) v).
Proof.
  destruct (calculate_daily_changes_frame
              (Some Examples.two_days)
              [Examples.row "v1.0.0" "nargo.tar.gz" 12]) as (_ & _ & H).
  apply (H 0%nat). reflexivity.
Defined.

Lemma calculate_daily_changes_spec_witness :
  Tracker.calculate_daily_changes
    (Some Examples.two_days) [Examples.row "v1.0.0" "nargo.tar.gz" 12] !! 0%nat
  = Some (Data.set_daily_change (Examples.row "v1.0.0" "nargo.tar.gz" 12) 2).
Proof.
  destruct (calculate_daily_changes_spec [Examples.row "v1.0.0" "nargo.tar.gz" 12])
    as (_ & _ & _ & H & _).
  apply (H Examples.two_days Examples.june2 Examples.june2_data).
  - unfold Date.valid; simpl; lia.
  - apply lookup_insert_eq.
  - intros k [v Hk]. unfold Examples.two_days in Hk.
    destruct (decide (Date.strftime Examples.june2 = k)) as [<-|N2].
    + exists Examples.june2. split; [unfold Date.valid; simpl; lia|].
      split; [reflexivity | discriminate].
    + rewrite lookup_insert_ne in Hk by assumption.
      destruct (decide (Date.strftime Examples.june1 = k)) as [<-|N1].
      * exists Examples.june1. split; [unfold Date.valid; simpl; lia|].
        split; [reflexivity | discriminate].
      * rewrite lookup_insert_ne, lookup_empty in Hk by assumption.
        discriminate.
  - reflexivity.
  - intros p [<- | []] _. reflexivity.
Defined.

(** C3 as stated fails twice. A history file without dates exists, and the
    row comes back without [daily_change]. And a row whose pair was never
    recorded gets 5 - 3 and not 5 - 0, because another pair of the last
    day has the same lookup key. *)
Lemma daily_change_unset_or_collided :
  Tracker.calculate_daily_changes (Some ∅) [Examples.current_row]
  = [Examples.current_row] /\
  Data.daily_change Examples.current_row = None /\
  Tracker.recorded_count (Tracker.day_stats Examples.colliding_day)
                         Examples.current_row = None /\
  Tracker.calculate_daily_changes
    (Some Examples.colliding_history) [Examples.current_row]
  = [Data.set_daily_change Examples.current_row 2].
Proof. repeat split; vm_compute; reflexivity. Qed.

(** * filter_v1_releases *)

Section Filter.
Import Data Tracker.

Lemma startswith_spec (s p : string) :
  PyStr.startswith s p = true <-> exists rest, s = String.append p rest.
Proof.
  revert s. induction p as [|a p IH]; intros s; simpl.
  - split; [intros _; exists s; reflexivity | destruct s; reflexivity].
  - destruct s as [|b s]; simpl.
    + split; [discriminate | intros [rest H]; discriminate].
    + rewrite andb_true_iff, IH, Ascii.eqb_eq. split.
      * intros [-> [rest ->]]. exists rest. reflexivity.
      * intros [rest H]. injection H as -> ->. eauto.
Qed.

Lemma filter_v1_releases_app (l1 l2 : list release) :
  filter_v1_releases (l1 ++ l2)
  = filter_v1_releases l1 ++ filter_v1_releases l2.
Proof. apply List.filter_app. Qed.

(** C6. [filter_v1_releases] keeps exactly the releases whose tag starts
    with "v1.0.0": a release is in the result iff it is in the input and
    its tag has the prefix; going through the input, a release with the
    prefix is kept in its place and one without is dropped; so
    "v1.0.0-beta.9" and "v1.0.0" pass and "v0.9.0" does not. *)
Theorem filter_v1_releases_prefix :
  target_prefix = "v1.0.0" /\
  (forall (releases : list release) (r : release),
      In r (filter_v1_releases releases)
      <-> In r releases /\ has_target_prefix (tag_name r)) /\
  filter_v1_releases [] = [] /\
  (forall (l1 l2 : list release) (r : release),
      has_target_prefix (tag_name r) ->
      filter_v1_releases (l1 ++ r :: l2)
      = filter_v1_releases l1 ++ r :: filter_v1_releases l2) /\
  (forall (l1 l2 : list release) (r : release),
      ~ has_target_prefix (tag_name r) ->
      filter_v1_releases (l1 ++ r :: l2)
      = filter_v1_releases l1 ++ filter_v1_releases l2) /\
  filter_v1_releases [Examples.beta9; Examples.v090; Examples.v100]
  = [Examples.beta9; Examples.v100].
Proof.
  split; [reflexivity|]. split; [|split; [reflexivity|split; [|split]]].
  - intros releases r. unfold filter_v1_releases.
    rewrite filter_In, startswith_spec. reflexivity.
  - intros l1 l2 r Hr. rewrite filter_v1_releases_app. f_equal.
    unfold filter_v1_releases; simpl.
    apply startswith_spec in Hr. now rewrite Hr.
  - intros l1 l2 r Hr. rewrite filter_v1_releases_app. f_equal.
    unfold filter_v1_releases; simpl.
    destruct (PyStr.startswith (tag_name r) target_prefix) eqn:E;
      [|reflexivity].
    apply startswith_spec in E. contradiction.
  - reflexivity.
Qed.

Lemma filter_v1_releases_prefix_witness :
  filter_v1_releases ([Examples.v090] ++ Examples.beta9 :: [Examples.v100])
  = filter_v1_releases [Examples.v090]
    ++ Examples.beta9 :: filter_v1_releases [Examples.v100].
Proof.
  destruct filter_v1_releases_prefix as (_ & _ & _ & H & _).
  apply H. exists "-beta.9"%string. reflexivity.
Defined.

End Filter.

(** * save_to_json *)

Section SaveJson.
Import Data Tracker.



End SaveJson.

(** * create_asset_breakdown *)

Section AssetBreakdown.
Import Data Tracker Visualize.

(** C8. The inference in the loop of [create_asset_breakdown] gives
    Linux and x86_64 for "noir-x86_64-unknown-linux-gnu.tar.gz", and
    Windows and Unknown for "noir.exe"; a day with these two assets is
    charted under the labels "Linux x86_64" and "Windows Unknown". *)
Theorem platform_arch_examples :
  infer_platform "noir-x86_64-unknown-linux-gnu.tar.gz" = "Linux" /\
  infer_arch "noir-x86_64-unknown-linux-gnu.tar.gz" = "x86_64" /\
  infer_platform "noir.exe" = "Windows" /\
  infer_arch "noir.exe" = "Unknown" /\
  create_asset_breakdown Examples.two_assets_history
  = Some [("Linux x86_64", 7); ("Windows Unknown", 3)].
Proof. repeat split; vm_compute; reflexivity. Qed.

(** C5 does not hold of the code. On a day with six releases,
    "v1.0.0-beta.10" is after every other tag in the order of
    [parse_semver], so it is the most recent release; the five tags that
    [create_asset_breakdown] selects are the others, and the 1000
    downloads of the most recent release are not in the chart. *)
Theorem asset_breakdown_skips_newest_release :
  Py.keys (releases (make_day_data Examples.six_betas))
  = ["v1.0.0-beta.10"; "v1.0.0-beta.9"; "v1.0.0-beta.8";
     "v1.0.0-beta.7"; "v1.0.0-beta.6"; "v1.0.0-beta.5"] /\
  forallb (fun t => Semver.sorts_before t "v1.0.0-beta.10")
          ["v1.0.0-beta.9"; "v1.0.0-beta.8"; "v1.0.0-beta.7";
           "v1.0.0-beta.6"; "v1.0.0-beta.5"] = true /\
  selected_release_tags (make_day_data Examples.six_betas)
  = ["v1.0.0-beta.9"; "v1.0.0-beta.8"; "v1.0.0-beta.7";
     "v1.0.0-beta.6"; "v1.0.0-beta.5"] /\
  create_asset_breakdown Examples.six_betas_history
  = Some [("Linux x86_64", 5)].
Proof. repeat split; vm_compute; reflexivity. Qed.

End AssetBreakdown.

(** * The two CSV logs *)

Section CsvLogs.
Import Data Tracker.

Lemma header_count_app (a b : list line) :
  header_count (a ++ b) = (header_count a + header_count b)%nat.
Proof. unfold header_count. now rewrite List.filter_app, length_app. Qed.

Lemma writerows_no_header (fieldnames : list string) (stats : list stat) :
  header_count (fst (writerows fieldnames stats)) = 0%nat.
Proof.
  induction stats as [|s stats IH]; simpl; [reflexivity|].
  destruct (dict_to_list fieldnames s); [|reflexivity].
  destruct (writerows fieldnames stats) as [ls ok]. exact IH.
Qed.

(** [save_to_csv] writes the header when the file is new and there is a
    row to write, and at no other time. *)
Lemma save_to_csv_header (file : option (list line)) (stats : list stat) :
  exists content,
    fst (save_to_csv file stats) = Some content /\
    header_count content
    = (header_count (default [] file)
       + match file, stats with None, _ :: _ => 1 | _, _ => 0 end)%nat.
Proof.
  unfold save_to_csv. destruct stats as [|s stats].
  - exists (default [] file). simpl. split; [reflexivity|].
    destruct file; apply plus_n_O.
  - pose proof (writerows_no_header (stat_keys s) (s :: stats)) as Hrows.
    destruct (writerows (stat_keys s) (s :: stats)) as [rows ok].
    simpl in Hrows. eexists. split; [reflexivity|].
    rewrite header_count_app, Hrows.
    destruct file as [content|]; simpl.
    + lia.
    + reflexivity.
Qed.

(** Once [download_history.csv] exists, no run adds a header to it. *)
Lemma csv_runs_existing (runs : list (list stat)) :
  forall content : list line,
  exists content',
    csv_runs runs (Some content) = Some content' /\
    header_count content' = header_count content.
Proof.
  unfold csv_runs.
  induction runs as [|stats runs IH]; intros content; simpl; [eauto|].
  destruct (save_to_csv_header (Some content) stats) as (c1 & -> & H1).
  destruct (IH c1) as (c2 & -> & H2). exists c2. split; [reflexivity|].
  rewrite H2, H1. simpl. destruct stats; lia.
Qed.

(** The daily-total log does what C9 says: the header goes in with the
    first run and never again, and every run adds one row. *)
Lemma daily_totals_runs_header
    (runs : list (string * string * list stat)) :
  runs <> [] ->
  exists rows,
    daily_totals_runs runs None
    = Some (Header ["date"; "timestamp"; "total_downloads"] :: rows) /\
    header_count rows = 0%nat /\ length rows = length runs.
Proof.
  assert (Hlater : forall rs rows,
    header_count rows = 0%nat ->
    exists rows',
      daily_totals_runs rs
        (Some (Header ["date"; "timestamp"; "total_downloads"] :: rows))
      = Some (Header ["date"; "timestamp"; "total_downloads"] :: rows') /\
      header_count rows' = 0%nat /\
      length rows' = (length rows + length rs)%nat).
  { unfold daily_totals_runs.
    induction rs as [|[[d n] stats] rs IH]; intros rows Hrows; simpl.
    - exists rows. repeat split; [assumption | lia].
    - destruct (IH (rows ++ [Row [CStr d; CStr n;
                                  CInt (Py.sum (map download_count stats))]]))
        as (rows' & Hrun & Hcount & Hlen).
      + rewrite header_count_app, Hrows. reflexivity.
      + exists rows'. split; [exact Hrun|]. split; [exact Hcount|].
        rewrite Hlen, length_app. simpl. lia. }
  destruct runs as [|[[d n] stats] rs]; [congruence|]. intros _.
  destruct (Hlater rs [Row [CStr d; CStr n;
                            CInt (Py.sum (map download_count stats))]]
              eq_refl) as (rows' & Hrun & Hcount & Hlen).
  exists rows'. split; [exact Hrun|]. split; [exact Hcount|].
  rewrite Hlen. simpl. lia.
Qed.

(** C9 does not hold of [save_to_csv]. A first run without rows creates
    [download_history.csv] empty; the next run finds the file and appends
    its row without a header; and whatever runs follow, the file never
    gets one. *)
Theorem save_to_csv_header_never_written :
  save_to_csv None [] = (Some [], true) /\
  csv_runs [[]; [Examples.current_row]] None
  = Some [Row [CStr "2025-06-02T09:00:00"; CStr "v1.0.0"; CStr "a_b";
               CInt 5; CInt 0; CStr ""]] /\
  forall runs : list (list stat),
  exists content,
    csv_runs ([] :: runs) None = Some content /\
    header_count content = 0%nat.
Proof.
  split; [reflexivity|]. split; [reflexivity|].
  intros runs. destruct (csv_runs_existing runs []) as (c & Hc & Hn).
  exists c. split; [exact Hc | exact Hn].
Qed.

End CsvLogs.

(** * Sums *)

Section Sums.

Lemma fold_left_add (l : list Z) (a : Z) : fold_left Z.add l a = a + Py.sum l.
Proof.
  unfold Py.sum. revert a. induction l as [|x l IH]; intros a; simpl; [lia|].
  rewrite (IH (a + x)), (IH (0 + x)). lia.
Qed.

Lemma sum_nil : Py.sum [] = 0.
Proof. reflexivity. Qed.

Lemma sum_cons (x : Z) (l : list Z) : Py.sum (x :: l) = x + Py.sum l.
Proof. unfold Py.sum at 1. simpl. apply fold_left_add. Qed.

Lemma sum_app (l1 l2 : list Z) : Py.sum (l1 ++ l2) = Py.sum l1 + Py.sum l2.
Proof.
  induction l1 as [|x l1 IH]; simpl; [reflexivity|].
  rewrite !sum_cons, IH. lia.
Qed.

Lemma sum_Permutation (l1 l2 : list Z) :
  Permutation l1 l2 -> Py.sum l1 = Py.sum l2.
Proof.
  induction 1; rewrite ?sum_cons; lia.
Qed.

End Sums.

(** * extract_download_stats *)

Section Extract.
Import Data Tracker.

(** The row of one asset. *)
Lemma extract_download_stats_In (now_iso : string) (rs : list release) (s : stat) :
  In s (extract_download_stats now_iso rs) <->
  exists r a, In r rs /\ In a (assets r) /\
              s = Stat now_iso (tag_name r) (name a) (a_download_count a)
                       (size a) (browser_download_url a) None.
Proof.
  unfold extract_download_stats. rewrite in_flat_map. split.
  - intros (r & Hr & Hs). apply in_map_iff in Hs as (a & <- & Ha). eauto.
  - intros (r & a & Hr & Ha & ->). exists r. split; [exact Hr|].
    apply in_map_iff. eauto.
Qed.

Lemma extract_download_stats_cons (now_iso : string) (r : release) (rs : list release) :
  extract_download_stats now_iso (r :: rs)
  = map (fun a => Stat now_iso (tag_name r) (name a) (a_download_count a)
                       (size a) (browser_download_url a) None) (assets r)
    ++ extract_download_stats now_iso rs.
Proof. reflexivity. Qed.

(** X1. When the release tags are distinct and the asset names of every
    release are distinct, the rows of one extraction have distinct
    (release_tag, asset_name) pairs. *)
Theorem extract_download_stats_pairs_unique
    (now_iso : string) (rs : list release) :
  NoDup (map tag_name rs) ->
  (forall r, In r rs -> NoDup (map name (assets r))) ->
  NoDup (map pair_of (extract_download_stats now_iso rs)).
Proof.
  induction rs as [|r rs IH]; intros Htags Hnames; [constructor|].
  rewrite extract_download_stats_cons, map_app, map_map.
  simpl in Htags. apply NoDup_cons in Htags as [Hr Htags].
  apply NoDup_app. split; [|split].
  - specialize (Hnames r (or_introl eq_refl)).
    induction (assets r) as [|a l IHl]; [constructor|].
    simpl in Hnames. apply NoDup_cons in Hnames as [Ha Hl].
    simpl. apply NoDup_cons. split; [|apply IHl, Hl].
    intros Hin. apply Ha. apply list_elem_of_In in Hin.
    apply in_map_iff in Hin as (a' & [= Hn] & Ha').
    apply list_elem_of_In, in_map_iff. eauto.
  - intros pr Hin1 Hin2. apply list_elem_of_In in Hin1, Hin2.
    apply in_map_iff in Hin1 as (a & <- & _).
    apply in_map_iff in Hin2 as (s & Hs & Hin2).
    apply extract_download_stats_In in Hin2 as (r' & a' & Hr' & _ & ->).
    unfold pair_of in Hs; simpl in Hs. injection Hs as Htag _.
    apply Hr. apply list_elem_of_In, in_map_iff. eauto.
  - apply IH; [exact Htags|]. intros r' Hr'. apply Hnames. right. exact Hr'.
Qed.

(** X2. The rows a run extracts are exactly the assets of the releases
    whose tag starts with "v1.0.0", each with the timestamp of the run and
    no [daily_change]; and the download counts of the rows add up to the
    download counts of the assets, release by release. *)
Theorem extract_filtered_rows (now_iso : string) (rs : list release) :
  (forall s,
      In s (extract_download_stats now_iso (filter_v1_releases rs)) <->
      exists r a, In r rs /\ has_target_prefix (tag_name r) /\
                  In a (assets r) /\
                  s = Stat now_iso (tag_name r) (name a) (a_download_count a)
                           (size a) (browser_download_url a) None) /\
  Py.sum (map download_count (extract_download_stats now_iso rs))
  = Py.sum (map (fun r => Py.sum (map a_download_count (assets r))) rs) /\
  length (extract_download_stats now_iso rs)
  = fold_right (fun r n => (length (assets r) + n)%nat) 0%nat rs.
Proof.
  split; [|split].
  - intros s. rewrite extract_download_stats_In. split.
    + intros (r & a & Hr & Ha & ->).
      unfold filter_v1_releases in Hr. apply filter_In in Hr as [Hr Hp].
      exists r, a. split; [exact Hr|]. split; [|auto].
      apply startswith_spec, Hp.
    + intros (r & a & Hr & Hp & Ha & ->). exists r, a.
      split; [|auto]. apply filter_In. split; [exact Hr|].
      apply startswith_spec, Hp.
  - induction rs as [|r rs IH]; [reflexivity|].
    rewrite extract_download_stats_cons, map_app, sum_app, IH. simpl.
    rewrite sum_cons, map_map. reflexivity.
  - induction rs as [|r rs IH]; [reflexivity|].
    rewrite extract_download_stats_cons, length_app, length_map, IH.
    reflexivity.
Qed.

End Extract.

(** * The grouping of save_to_json *)

Section Grouping.
Import Data Tracker.

Lemma get_set_ne {V} (d : Py.dict V) (k k' : string) (v : V) :
  k' <> k -> Py.get (Py.set d k' v) k = Py.get d k.
Proof.
  intros Hne. induction d as [|[k0 v0] d IH]; simpl.
  - destruct (String.eqb_spec k' k); [contradiction | reflexivity].
  - destruct (String.eqb_spec k0 k') as [->|Hk0]; simpl.
    + destruct (String.eqb_spec k' k); [contradiction | reflexivity].
    + destruct (String.eqb k0 k); [reflexivity | exact IH].
Qed.

Lemma keys_set {V} (d : Py.dict V) (k : string) (v : V) :
  Py.keys (Py.set d k v)
  = if Py.mem d k then Py.keys d else Py.keys d ++ [k].
Proof.
  unfold Py.keys, Py.mem. induction d as [|[k0 v0] d IH]; simpl; [reflexivity|].
  destruct (String.eqb k0 k); simpl; [reflexivity|].
  rewrite IH. destruct (Py.get d k); reflexivity.
Qed.

Lemma get_None_keys {V} (d : Py.dict V) (k : string) :
  Py.get d k = None <-> ~ In k (Py.keys d).
Proof.
  unfold Py.keys. induction d as [|[k0 v0] d IH]; simpl; [tauto|].
  destruct (String.eqb_spec k0 k) as [->|Hne].
  - split; [discriminate | intros H; exfalso; apply H; auto].
  - rewrite IH. intuition.
Qed.

Lemma keys_set_NoDup {V} (d : Py.dict V) (k : string) (v : V) :
  NoDup (Py.keys d) -> NoDup (Py.keys (Py.set d k v)).
Proof.
  intros Hd. rewrite keys_set. unfold Py.mem.
  destruct (Py.get d k) eqn:Hget; [exact Hd|].
  apply NoDup_app. split; [exact Hd|]. split; [|apply NoDup_singleton].
  intros x Hx Hk. apply list_elem_of_singleton in Hk as ->.
  apply get_None_keys in Hget. apply Hget, list_elem_of_In, Hx.
Qed.

(** What one round of the loop does to the entry of each tag. *)
Lemma group_stat_get (d : Py.dict release_data) (s : stat) (k : string) :
  Py.get (group_stat d s) k
  = if String.eqb (release_tag s) k
    then Some (ReleaseData
                 (r_total_downloads (default (ReleaseData 0 []) (Py.get d k))
                  + download_count s)
                 (r_assets (default (ReleaseData 0 []) (Py.get d k)) ++ [s]))
    else Py.get d k.
Proof.
  unfold group_stat, Py.mem.
  destruct (String.eqb_spec (release_tag s) k) as [<-|Hne].
  - destruct (Py.get d (release_tag s)) as [rd|] eqn:Hget; simpl.
    + rewrite Hget. apply get_set_eq.
    + rewrite get_set_eq. apply get_set_eq.
  - destruct (Py.get d (release_tag s)) as [rd|] eqn:Hget; simpl.
    + rewrite Hget. apply get_set_ne, Hne.
    + rewrite get_set_eq. rewrite !get_set_ne by exact Hne. reflexivity.
Qed.

Lemma group_stat_keys_NoDup (d : Py.dict release_data) (s : stat) :
  NoDup (Py.keys d) -> NoDup (Py.keys (group_stat d s)).
Proof.
  intros Hd. unfold group_stat.
  destruct (negb (Py.mem d (release_tag s)));
    destruct (Py.get _ (release_tag s)); auto using keys_set_NoDup.
Qed.

(** The entry of a tag after the loop, from the entry before it. *)
Lemma fold_group_stat_get (stats : list stat) (k : string) :
  forall d : Py.dict release_data,
    Py.get (fold_left group_stat stats d) k
    = match List.filter (fun s => String.eqb (release_tag s) k) stats with
      | [] => Py.get d k
      | l =>
          Some (ReleaseData
                  (r_total_downloads (default (ReleaseData 0 []) (Py.get d k))
                   + Py.sum (map download_count l))
                  (r_assets (default (ReleaseData 0 []) (Py.get d k)) ++ l))
      end.
Proof.
  induction stats as [|s stats IH]; intros d; simpl; [reflexivity|].
  rewrite IH, group_stat_get.
  destruct (String.eqb (release_tag s) k); simpl.
  - destruct (List.filter _ stats) as [|s' l]; simpl.
    + rewrite sum_cons, sum_nil. do 2 f_equal. lia.
    + rewrite <- app_assoc. simpl. rewrite !sum_cons. do 2 f_equal. lia.
  - reflexivity.
Qed.

(** X3. In the day entry that [save_to_json] builds, the entry of a
    release tag holds the rows of that tag, in the order of the run, and
    their download counts added up; a tag without rows has no entry. *)
Theorem make_day_data_groups (stats : list stat) (k : string) :
  Py.get (releases (make_day_data stats)) k
  = match List.filter (fun s => String.eqb (release_tag s) k) stats with
    | [] => None
    | l => Some (ReleaseData (Py.sum (map download_count l)) l)
    end.
Proof.
  unfold make_day_data; simpl. rewrite fold_group_stat_get. simpl.
  destruct (List.filter _ stats); reflexivity.
Qed.

Lemma set_totals (d : Py.dict release_data) (k : string) (v : release_data) :
  Py.sum (map (fun e => r_total_downloads (snd e)) (Py.set d k v))
  = Py.sum (map (fun e => r_total_downloads (snd e)) d)
    - r_total_downloads (default (ReleaseData 0 []) (Py.get d k))
    + r_total_downloads v.
Proof.
  induction d as [|[k0 v0] d IH]; simpl.
  - rewrite sum_cons, sum_nil. lia.
  - destruct (String.eqb k0 k); simpl; rewrite !sum_cons; simpl; [lia|].
    rewrite IH. lia.
Qed.

Lemma group_stat_totals (d : Py.dict release_data) (s : stat) :
  Py.sum (map (fun e => r_total_downloads (snd e)) (group_stat d s))
  = Py.sum (map (fun e => r_total_downloads (snd e)) d) + download_count s.
Proof.
  unfold group_stat, Py.mem.
  destruct (Py.get d (release_tag s)) as [rd|] eqn:Hget; simpl.
  - rewrite Hget, set_totals, Hget. simpl. lia.
  - rewrite get_set_eq, !set_totals, get_set_eq, Hget. simpl. lia.
Qed.

Lemma make_day_data_release_totals (stats : list stat) :
  Py.sum (map (fun e => r_total_downloads (snd e))
              (releases (make_day_data stats)))
  = Py.sum (map download_count stats).
Proof.
  unfold make_day_data; simpl.
  assert (H : forall d,
    Py.sum (map (fun e => r_total_downloads (snd e))
                (fold_left group_stat stats d))
    = Py.sum (map (fun e => r_total_downloads (snd e)) d)
      + Py.sum (map download_count stats)).
  { induction stats as [|s stats IH]; intros d; simpl.
    - rewrite sum_nil. lia.
    - rewrite IH, group_stat_totals, sum_cons. lia. }
  rewrite H. simpl. rewrite sum_nil. lia.
Qed.

(** X4. The day entry is consistent: its release tags are distinct, its
    [total_downloads] is the sum of the download counts of the rows of the
    run, and it is also the sum of the [total_downloads] of its releases. *)
Theorem make_day_data_totals (stats : list stat) :
  NoDup (Py.keys (releases (make_day_data stats))) /\
  total_downloads (make_day_data stats) = Py.sum (map download_count stats) /\
  total_downloads (make_day_data stats)
  = Py.sum (map (fun e => r_total_downloads (snd e))
                (releases (make_day_data stats))).
Proof.
  unfold make_day_data; simpl. split; [|split; [reflexivity|]].
  - assert (H : forall d, NoDup (Py.keys d) ->
                          NoDup (Py.keys (fold_left group_stat stats d))).
    { induction stats as [|s stats IH]; intros d Hd; simpl; [exact Hd|].
      apply IH, group_stat_keys_NoDup, Hd. }
    apply H. constructor.
  - symmetry. apply (make_day_data_release_totals stats).
Qed.

End Grouping.

(** * The size of a fetch *)

Section FetchSize.
Import Data Tracker.
Variable api : Z -> reply.
Hypothesis per_page : forall p, (length (body_of (api p)) <= 100)%nat.

Lemma fetch_loop_length (fuel : nat) :
  forall (page : Z) (rel out : list release) (log log' : list Z),
    1 <= page ->
    fetch_loop api fuel page rel log = Some (Returned out, log') ->
    (length out <= length rel + 100 * Z.to_nat (max_pages + 1 - page))%nat.
Proof.
  unfold max_pages.
  induction fuel as [|fuel IH]; intros page rel out log log' Hp Hrun.
  - simpl in Hrun. destruct (Z.leb_spec page max_pages); [discriminate|].
    injection Hrun as <- _. lia.
  - destruct (Z.le_gt_cases page max_pages) as [Hle|Hgt].
    + rewrite fetch_loop_step in Hrun by exact Hle.
      pose proof (per_page page) as Hlen.
      destruct (api page) as [|st json]; [discriminate|].
      destruct (st =? 422); [injection Hrun as <- _; lia|].
      destruct (is_error_status st); [discriminate|].
      destruct json as [[|r l]|]; [injection Hrun as <- _; lia| |discriminate].
      apply IH in Hrun; [|lia]. rewrite length_app in Hrun.
      simpl in Hlen. unfold max_pages in *. simpl in *. lia.
    + rewrite fetch_loop_done in Hrun by exact Hgt.
      injection Hrun as <- _. lia.
Qed.

(** X5. When no page holds more than the 100 releases asked for, a fetch
    that returns gives at most 1000 releases. *)
Theorem fetch_releases_at_most_1000
    (fuel : nat) (out : list release) (log : list Z) :
  fetch_releases api fuel = Some (Returned out, log) ->
  (length out <= 1000)%nat.
Proof.
  intros Hrun. apply fetch_loop_length in Hrun; [|lia].
  unfold max_pages in Hrun. simpl in Hrun. lia.
Qed.

End FetchSize.

Lemma fetch_releases_at_most_1000_witness :
  (length [Examples.beta9; Examples.beta9] <= 1000)%nat.
Proof.
  apply (fetch_releases_at_most_1000 Examples.two_pages) with (fuel := 10%nat)
                                                              (log := [1; 2; 3]).
  - intros p. unfold Examples.two_pages.
    destruct (p <=? 2); simpl; lia.
  - reflexivity.
Defined.

(** * The rows of the CSV logs *)

Section CsvRows.
Import Data Tracker Pipeline.











End CsvRows.

(** * Daily changes against the day just saved *)

Section AfterSave.
Import Data Tracker.

Variable file : option history.
Variable date_str : string.
Variable stats1 : list stat.

(** The date of the save is the latest date of the history. *)
Hypothesis latest_date :
  forall k, is_Some (default (∅ : history) file !! k) -> PyStr.le k date_str = true.
Hypothesis pairs_distinct : NoDup (map pair_of stats1).
Hypothesis keys_distinct :
  forall a b, In a stats1 -> In b stats1 ->
              stat_key a = stat_key b -> pair_of a = pair_of b.

(** The run after the save compares against the rows just saved. *)
Lemma calculate_after_save (current : list stat) :
  calculate_daily_changes (save_to_json date_str file stats1) current
  = map (fun s =>
           set_daily_change s
             (download_count s
              - default 0 (build_previous_stats (make_day_data stats1)
                           !! stat_key s)))
        current.
Proof.
  unfold save_to_json.
  apply (calculate_daily_changes_previous _ date_str (make_day_data stats1)).
  - apply lookup_insert_eq.
  - intros k Hk. destruct (decide (date_str = k)) as [<-|Hne]; [apply le_refl|].
    rewrite lookup_insert_ne in Hk by exact Hne. apply latest_date, Hk.
Qed.

(** X9. After a run has saved its rows under the latest date of the
    history, a run that finds the same pairs with the same counts sets
    [daily_change] to 0 on every row: so does a second run on the same
    day. *)
Theorem rerun_zeroes_daily_changes (current : list stat) :
  map (fun s => (pair_of s, download_count s)) current
  = map (fun s => (pair_of s, download_count s)) stats1 ->
  calculate_daily_changes (save_to_json date_str file stats1) current
  = map (fun s => set_daily_change s 0) current.
Proof.
  intros Hsame. rewrite calculate_after_save.
  apply map_ext_in. intros s Hs. f_equal.
  assert (Hin : In (pair_of s, download_count s)
                   (map (fun s => (pair_of s, download_count s)) stats1)).
  { rewrite <- Hsame.
    apply (in_map (fun s => (pair_of s, download_count s))), Hs. }
  apply in_map_iff in Hin as (p & [= Htag Hname Hcount] & Hp).
  assert (Hpair : pair_of p = pair_of s) by (unfold pair_of; congruence).
  rewrite (previous_count_same stats1 p s pairs_distinct keys_distinct Hp Hpair).
  simpl. lia.
Qed.

Lemma sum_map_sub {A} (f g : A -> Z) (l : list A) :
  Py.sum (map (fun x => f x - g x) l) = Py.sum (map f l) - Py.sum (map g l).
Proof.
  induction l as [|x l IH]; simpl; [reflexivity|].
  rewrite !sum_cons, IH. lia.
Qed.

(** X10. After a run has saved its rows under the latest date, a run that
    finds the same (release_tag, asset_name) pairs, in any order and with
    any counts, has daily changes that add up to the sum of its download
    counts minus the sum of the saved ones. *)
Theorem daily_changes_add_up (current : list stat) :
  Permutation (map pair_of current) (map pair_of stats1) ->
  Py.sum (map (fun s => default 0 (daily_change s))
              (calculate_daily_changes
                 (save_to_json date_str file stats1) current))
  = Py.sum (map download_count current) - Py.sum (map download_count stats1).
Proof.
  intros Hperm. rewrite calculate_after_save, map_map. simpl.
  set (G := fun pr : string * string =>
              default 0 (build_previous_stats (make_day_data stats1)
                         !! PyStr.cat (fst pr) (PyStr.cat "_" (snd pr)))).
  change (Py.sum (map (fun s => download_count s - G (pair_of s)) current)
          = Py.sum (map download_count current)
            - Py.sum (map download_count stats1)).
  rewrite sum_map_sub. f_equal.
  rewrite <- (map_map pair_of G current).
  rewrite (sum_Permutation _ _ (Permutation_map G Hperm)), map_map.
  f_equal. apply map_ext_in. intros p Hp. unfold G.
  change (PyStr.cat (fst (pair_of p)) (PyStr.cat "_" (snd (pair_of p))))
    with (stat_key p).
  now rewrite (previous_count_same stats1 p p pairs_distinct keys_distinct Hp eq_refl).
Qed.

End AfterSave.

(** * run *)

Section Run.
Import Data Tracker Pipeline.







(** X12. When a run finishes, the total it prints is the sum of the
    download counts of its rows in all three places: it is the
    [total_downloads] of the day entry saved in the history, the sum of
    the totals of the releases of that entry, and the last cell of the row
    appended to [daily_totals.csv]. *)
Theorem run_totals_agree (api : Z -> reply) (fuel : nat) (now : clock)
    (fs fs' : files) (found : nat) (total : Z) (daily : option Z) :
  run api fuel now fs = Some (fs', Finished found total daily) ->
  exists (h : history) (day : day_data) (rows : list line),
    download_history_json fs' = Some h /\
    h !! json_date now = Some day /\
    total_downloads day = total /\
    Py.sum (map (fun e => r_total_downloads (snd e)) (releases day)) = total /\
    daily_totals_csv fs'
    = Some (rows ++ [Row [CStr (totals_date now); CStr (totals_iso now);
                          CInt total]]).
Proof.
  unfold run. destruct (fetch_releases api fuel) as [[[releases|e] log]|];
    [|discriminate|discriminate].
  set (stats := calculate_daily_changes _ _).
  destruct (save_to_csv (download_history_csv fs) stats) as [c ok].
  destruct ok; simpl; [|discriminate].
  intros [= <- _ <- _].
  eexists _, (make_day_data stats), _. simpl.
  split; [reflexivity|]. split; [apply lookup_insert_eq|].
  split; [reflexivity|]. split; [apply make_day_data_release_totals|].
  unfold save_daily_totals_csv. f_equal.
Qed.

End Run.

(** * The width of the rows of download_history.csv *)

Section CsvWidth.
Import Data Tracker Pipeline.




End CsvWidth.

(** * The order of the keys *)

Section KeyOrder.
Import Semver Order.

Lemma lex_pair_order {A B} (cA : A -> A -> comparison) (cB : B -> B -> comparison) :
  is_order cA -> is_order cB -> is_order (lex_pair cA cB).
Proof.
  intros (RA & EA & AA & TA) (RB & EB & AB & TB). unfold lex_pair.
  split; [|split; [|split]].
  - intros [a b]. simpl. now rewrite RA, RB.
  - intros [a b] [a' b']. simpl.
    destruct (cA a a') eqn:Ha; simpl; try discriminate.
    intros Hb. now rewrite (EA _ _ Ha), (EB _ _ Hb).
  - intros [a b] [a' b']. simpl. rewrite (AA a a'), (AB b b').
    destruct (cA a' a); reflexivity.
  - intros [a b] [a' b'] [a'' b'']. simpl.
    destruct (cA a a') eqn:H1; simpl; try discriminate.
    + apply EA in H1 as ->.
      destruct (cA a' a''); simpl; try discriminate; [apply TB | reflexivity].
    + intros _. destruct (cA a' a'') eqn:H2; simpl; try discriminate.
      * apply EA in H2 as <-. now rewrite H1.
      * intros _. now rewrite (TA _ _ _ H1 H2).
Qed.

Lemma Z_compare_order : is_order Z.compare.
Proof.
  split; [exact Z.compare_refl|]. split; [exact Z.compare_eq|].
  split; [intros x y; apply Z.compare_antisym|].
  intros x y z. rewrite !Z.compare_lt_iff. lia.
Qed.

Lemma string_compare_order : is_order String.compare.
Proof.
  split; [exact string_compare_refl|]. split; [exact String.compare_eq_iff|].
  split; [exact String.compare_antisym|]. exact string_compare_lt_trans.
Qed.

Lemma pynum_compare_order : is_order pynum_compare.
Proof.
  destruct Z_compare_order as (R & E & A & T).
  split; [exact pynum_compare_refl|]. split; [|split].
  - intros [x|] [y|]; simpl; try discriminate; [|reflexivity].
    intros H. now rewrite (E _ _ H).
  - intros [x|] [y|]; simpl; try reflexivity. apply A.
  - intros [x|] [y|] [z|]; simpl; try discriminate; try reflexivity. apply T.
Qed.

Lemma key_compare_tuple (a b : key) :
  key_compare a b
  = lex_pair pynum_compare
      (lex_pair Z.compare
         (lex_pair Z.compare
            (lex_pair Z.compare (lex_pair String.compare Z.compare))))
      (key_tuple a) (key_tuple b).
Proof. reflexivity. Qed.

Lemma key_compare_order : is_order key_compare.
Proof.
  pose proof (lex_pair_order _ _ pynum_compare_order
    (lex_pair_order _ _ Z_compare_order
      (lex_pair_order _ _ Z_compare_order
        (lex_pair_order _ _ Z_compare_order
          (lex_pair_order _ _ string_compare_order Z_compare_order)))))
    as (R & E & A & T).
  split; [|split; [|split]].
  - intros x. rewrite key_compare_tuple. apply R.
  - intros [a1 a2 a3 a4 a5 a6] [b1 b2 b3 b4 b5 b6] H.
    rewrite key_compare_tuple in H. apply E in H.
    unfold key_tuple in H; simpl in H. congruence.
  - intros x y. rewrite !key_compare_tuple. apply A.
  - intros x y z. rewrite !key_compare_tuple. apply T.
Qed.

(** X14. The [<] of the keys of [parse_semver] is a strict total order:
    no key is below itself, [<] is transitive, two keys are never below
    each other, and of two different keys one is below the other. So
    sorting by these keys has one result up to the order of equal keys. *)
Theorem key_lt_strict_total_order :
  (forall a, key_lt a a = false) /\
  (forall a b c, key_lt a b = true -> key_lt b c = true -> key_lt a c = true) /\
  (forall a b, key_lt a b = true -> key_lt b a = false) /\
  (forall a b, key_lt a b = true \/ a = b \/ key_lt b a = true).
Proof.
  destruct key_compare_order as (R & E & A & T). unfold key_lt.
  split; [|split; [|split]].
  - intros a. now rewrite R.
  - intros a b c. destruct (key_compare a b) eqn:H1; try discriminate.
    destruct (key_compare b c) eqn:H2; try discriminate.
    now rewrite (T _ _ _ H1 H2).
  - intros a b. rewrite (A b a). destruct (key_compare a b); simpl; congruence.
  - intros a b. rewrite (A b a).
    destruct (key_compare a b) eqn:H; simpl; auto.
Qed.

Lemma key_lt_strict_total_order_witness :
  key_lt (Key (PInt 1) 0 0 0 "beta" 2) (Key (PInt 1) 0 0 1 "" 0) = true.
Proof.
  destruct key_lt_strict_total_order as (_ & Htrans & _).
  apply (Htrans _ (Key (PInt 1) 0 0 0 "beta" 10)); reflexivity.
Defined.

(** X15. For two version strings that match the pattern with the same
    major, minor, patch and prerelease label, each with a prerelease
    number, and for which [parse_semver] returns a key, the order of the
    keys is the order of the numbers as integers. *)
Theorem prerelease_number_order
    (s t : string) (ms mt : groups) (d1 d2 : string) (n1 n2 : Z) :
  re_match (PyStr.lstrip "v" s) = Some ms ->
  re_match (PyStr.lstrip "v" t) = Some mt ->
  g_major ms = g_major mt -> g_minor ms = g_minor mt ->
  g_patch ms = g_patch mt -> g_pre ms = g_pre mt ->
  g_num ms = Some d1 -> g_num mt = Some d2 ->
  py_int d1 = Some n1 -> py_int d2 = Some n2 ->
  is_Some (parse_semver s) -> is_Some (parse_semver t) ->
  sorts_before s t = (n1 <? n2).
Proof.
  intros Hms Hmt Ha Hb Hc Hp Hd1 Hd2 Hn1 Hn2 [ks Hks] [kt Hkt].
  destruct (re_match_groups _ _ Hms) as (_ & _ & _ & _ & H5 & _).
  destruct (re_match_groups _ _ Hmt) as (_ & _ & _ & _ & H5' & _).
  destruct (H5 d1 Hd1) as [He1 _]. destruct (H5' d2 Hd2) as [He2 _].
  unfold sorts_before. rewrite Hks, Hkt.
  unfold parse_semver in Hks, Hkt.
  rewrite Hms, Hd1, He1, Hn1 in Hks.
  rewrite Hmt, <- Ha, <- Hb, <- Hc, <- Hp, Hd2, He2, Hn2 in Hkt.
  destruct (py_int (g_major ms)) as [a|]; [|discriminate].
  destruct (py_int (g_minor ms)) as [b|]; [|discriminate].
  destruct (py_int (g_patch ms)) as [c|]; [|discriminate].
  cbn [mbind option_bind] in Hks, Hkt.
  injection Hks as <-. injection Hkt as <-.
  unfold key_lt, key_compare; simpl.
  rewrite !Z.compare_refl, string_compare_refl. simpl.
  unfold Z.ltb. destruct (n1 ?= n2); reflexivity.
Qed.

Lemma prerelease_number_order_witness :
  sorts_before "v1.0.0-beta.2" "v1.0.0-beta.10" = (2 <? 10).
Proof.
  apply (prerelease_number_order
           "v1.0.0-beta.2" "v1.0.0-beta.10"
           (Groups "1" "0" "0" (Some "beta") (Some "2"))
           (Groups "1" "0" "0" (Some "beta") (Some "10")) "2" "10");
    try reflexivity; eexists; reflexivity.
Defined.

End KeyOrder.

(** * The latest date *)

Section Latest.
Import Data Report.

Lemma lt_false_le (a b : string) : PyStr.lt a b = false -> PyStr.le b a = true.
Proof.
  unfold PyStr.lt, PyStr.le, String.ltb, String.leb.
  rewrite (String.compare_antisym a b).
  destruct (String.compare b a); simpl; congruence.
Qed.

Lemma lt_true_le (a b : string) : PyStr.lt a b = true -> PyStr.le a b = true.
Proof.
  unfold PyStr.lt, PyStr.le, String.ltb, String.leb.
  destruct (String.compare a b); congruence.
Qed.

Lemma max_fold_greatest (l : list string) :
  forall x : string,
    let m := fold_left (fun m y => if PyStr.lt m y then y else m) l x in
    In m (x :: l) /\ forall y, In y (x :: l) -> PyStr.le y m = true.
Proof.
  induction l as [|z l IH]; intros x; simpl.
  - split; [auto|]. intros y [<- | []]. apply le_refl.
  - destruct (PyStr.lt x z) eqn:Hxz.
    + destruct (IH z) as [Hin Hmax]. split; [right; exact Hin|].
      intros y [<- | Hy]; [|apply Hmax, Hy].
      eapply le_trans; [apply lt_true_le, Hxz | apply Hmax; left; reflexivity].
    + destruct (IH x) as [Hin Hmax]. split.
      * destruct Hin as [<- | Hin]; [auto | right; right; exact Hin].
      * intros y [<- | [<- | Hy]].
        -- apply Hmax. left. reflexivity.
        -- eapply le_trans; [apply lt_false_le, Hxz|].
           apply Hmax. left. reflexivity.
        -- apply Hmax. right. exact Hy.
Qed.

(** [max] of a non-empty list is its greatest element. *)
Lemma max_greatest (l : list string) :
  l <> [] ->
  exists m, Py.max l = Some m /\ In m l /\
            forall y, In y l -> PyStr.le y m = true.
Proof.
  destruct l as [|x l]; [congruence|]. intros _.
  eexists. split; [reflexivity|]. apply max_fold_greatest.
Qed.

Lemma gkeys_nonempty {V} (h : gmap string V) : h <> ∅ -> Py.gkeys h <> [].
Proof.
  intros Hne Hnil. apply Hne. apply map_empty. intros k.
  destruct (h !! k) eqn:Hk; [|reflexivity].
  assert (Hin : In k (Py.gkeys h)) by (apply gkeys_In; eauto).
  rewrite Hnil in Hin. destruct Hin.
Qed.

(** On a history with a date, [latest] does not raise. *)
Lemma latest_greatest (h : history) :
  h <> ∅ ->
  exists d day, latest h = Some (d, day) /\ h !! d = Some day /\
                forall k, is_Some (h !! k) -> PyStr.le k d = true.
Proof.
  intros Hne. destruct (max_greatest _ (gkeys_nonempty h Hne))
    as (m & Hmax & Hin & Hge).
  apply gkeys_In in Hin as [day Hday].
  exists m, day. unfold latest. rewrite Hmax. simpl. rewrite Hday. simpl.
  split; [reflexivity|]. split; [reflexivity|].
  intros k Hk. apply Hge, gkeys_In, Hk.
Qed.

(** X16. The visualiser and the tracker agree on the latest date:
    [max(history.keys())], which the charts and the summary read, is
    [sorted(history.keys())[-1]], which [calculate_daily_changes] compares
    against; on a history with a date both are the greatest key in the
    order of strings, and on an empty one neither exists. *)
Theorem latest_date_is_previous_date (h : history) :
  Py.max (Py.gkeys h) = last (Py.sorted (Py.gkeys h)) /\
  (h = ∅ -> Py.max (Py.gkeys h) = None) /\
  (h <> ∅ ->
   exists d, Py.max (Py.gkeys h) = Some d /\ is_Some (h !! d) /\
             forall k, is_Some (h !! k) -> PyStr.le k d = true).
Proof.
  split; [|split].
  - destruct (decide (h = ∅)) as [->|Hne].
    + now rewrite (gkeys_empty (V:=day_data)).
    + destruct (latest_greatest h Hne) as (d & day & Hl & Hd & Hge).
      rewrite (previous_date_greatest h d day Hd Hge).
      unfold latest in Hl. destruct (Py.max (Py.gkeys h)) as [m|]; [|discriminate].
      simpl in Hl. destruct (h !! m); [|discriminate]. simpl in Hl. congruence.
  - intros ->. now rewrite (gkeys_empty (V:=day_data)).
  - intros Hne. destruct (latest_greatest h Hne) as (d & day & Hl & Hd & Hge).
    exists d. split; [|split; [eauto | exact Hge]].
    unfold latest in Hl. destruct (Py.max (Py.gkeys h)) as [m|]; [|discriminate].
    simpl in Hl. destruct (h !! m); [|discriminate]. simpl in Hl. congruence.
Qed.

Lemma latest_date_is_previous_date_witness :
  exists d, Py.max (Py.gkeys Examples.two_days) = Some d /\
            is_Some (Examples.two_days !! d).
Proof.
  destruct (latest_date_is_previous_date Examples.two_days) as (_ & _ & H).
  destruct H as (d & Hd & Hsome & _).
  - intros Hempty.
    assert (Hl : Examples.two_days !! Date.strftime Examples.june2 = None)
      by (rewrite Hempty; apply lookup_empty).
    unfold Examples.two_days in Hl. rewrite lookup_insert_eq in Hl.
    discriminate.
  - exists d. split; assumption.
Defined.

End Latest.

(** * More on sorting *)

Section SortingMore.
Context {A : Type} (le : A -> A -> bool).

Lemma insert_by_Permutation (x : A) (l : list A) :
  Permutation (Py.insert_by le x l) (x :: l).
Proof.
  induction l as [|y l IH]; simpl; [reflexivity|].
  destruct (le x y); [reflexivity|].
  rewrite IH. apply perm_swap.
Qed.

Lemma sorted_by_Permutation (l : list A) : Permutation (Py.sorted_by le l) l.
Proof.
  unfold Py.sorted_by. induction l as [|x l IH]; simpl; [reflexivity|].
  rewrite insert_by_Permutation. now apply perm_skip.
Qed.

Lemma ascending_lookup (l : list A) :
  Py.ascending le l ->
  forall (i j : nat) (a b : A),
    (i < j)%nat -> l !! i = Some a -> l !! j = Some b -> le a b = true.
Proof.
  induction l as [|x l IH]; intros Hasc i j a b Hij Hi Hj; [discriminate|].
  destruct Hasc as [Hx Hl]. destruct j as [|j]; [lia|].
  simpl in Hj. destruct i as [|i].
  - injection Hi as <-. apply Hx.
    apply list_elem_of_In, list_elem_of_lookup. eauto.
  - simpl in Hi. apply (IH Hl i j); (assumption || lia).
Qed.

Lemma ascending_take_drop (l : list A) (n : nat) :
  Py.ascending le l ->
  forall a b, In a (take n l) -> In b (drop n l) -> le a b = true.
Proof.
  intros Hasc a b Ha Hb.
  apply list_elem_of_In, list_elem_of_lookup in Ha as [i Hi].
  apply list_elem_of_In, list_elem_of_lookup in Hb as [j Hj].
  rewrite lookup_drop in Hj.
  assert (Hlt : (i < n)%nat).
  { apply lookup_lt_Some in Hi. rewrite length_take in Hi. lia. }
  rewrite lookup_take_lt in Hi by exact Hlt.
  apply (ascending_lookup l Hasc i (n + j)); (assumption || lia).
Qed.

End SortingMore.

(** * create_release_breakdown *)

Section ReleaseBreakdown.
Import Data Semver Report.

Lemma key_le_iff (a b : key) : key_le a b = true <-> key_compare a b <> Gt.
Proof.
  destruct key_compare_order as (_ & _ & Hanti & _).
  unfold key_le, key_lt. rewrite (Hanti b a).
  destruct (key_compare a b); simpl; split; congruence.
Qed.

Lemma key_le_total (a b : key) : key_le a b = true \/ key_le b a = true.
Proof.
  destruct key_compare_order as (_ & _ & Hanti & _).
  rewrite !key_le_iff, (Hanti b a).
  destruct (key_compare a b); simpl; [left|left|right]; congruence.
Qed.

Lemma key_le_trans (a b c : key) :
  key_le a b = true -> key_le b c = true -> key_le a c = true.
Proof.
  destruct key_compare_order as (_ & Heq & _ & Htrans).
  rewrite !key_le_iff. intros Hab Hbc.
  destruct (key_compare a b) eqn:H1; [| |congruence].
  - apply Heq in H1 as ->. exact Hbc.
  - destruct (key_compare b c) eqn:H2; [| |congruence].
    + apply Heq in H2 as <-. congruence.
    + rewrite (Htrans _ _ _ H1 H2). congruence.
Qed.

(** When every tag has a key, every item gets the key of its tag. *)
Lemma decorate_spec (items : list (string * Z)) :
  (forall x, In x items -> is_Some (parse_semver (fst x))) ->
  exists dec,
    decorate items = Some dec /\ map snd dec = items /\
    forall p, In p dec -> parse_semver (fst (snd p)) = Some (fst p).
Proof.
  induction items as [|x items IH]; intros Hall; simpl.
  - exists []. repeat split. intros p [].
  - destruct IH as (dec & Hdec & Hsnd & Hkey);
      [intros y Hy; apply Hall; right; exact Hy|].
    destruct (Hall x (or_introl eq_refl)) as [k Hk].
    rewrite Hk, Hdec. simpl. exists ((k, x) :: dec).
    split; [reflexivity|]. split; [simpl; now rewrite Hsnd|].
    intros p [<- | Hp]; [exact Hk | apply Hkey, Hp].
Qed.

(** When [parse_semver] raises on a tag, so does the sort. *)
Lemma decorate_raises (items : list (string * Z)) :
  (exists x, In x items /\ parse_semver (fst x) = None) ->
  decorate items = None.
Proof.
  induction items as [|x items IH]; intros (y & Hy & Hnone); [destruct Hy|].
  simpl. destruct Hy as [<- | Hy].
  - now rewrite Hnone.
  - rewrite (IH (ex_intro _ y (conj Hy Hnone))).
    destruct (parse_semver (fst x)); reflexivity.
Qed.

(** With distinct tags the loop copies the totals in order. *)
Lemma release_totals_map (day : day_data) :
  NoDup (Py.keys (releases day)) ->
  release_totals day
  = map (fun e => (fst e, r_total_downloads (snd e))) (releases day).
Proof.
  unfold release_totals.
  assert (H : forall rs (acc : Py.dict Z),
    NoDup (Py.keys acc ++ Py.keys rs) ->
    fold_left (fun groups '(release_tag, release_data) =>
                 Py.set groups release_tag (r_total_downloads release_data))
              rs acc
    = acc ++ map (fun e => (fst e, r_total_downloads (snd e))) rs).
  { induction rs as [|[k rd] rs IH]; intros acc Hnd; simpl.
    - now rewrite app_nil_r.
    - assert (Hfresh : Py.get acc k = None).
      { apply get_None_keys. intros Hin.
        apply NoDup_app in Hnd as (_ & Hdisj & _).
        apply (Hdisj k); [apply list_elem_of_In, Hin|]. simpl. left. }
      rewrite (set_absent acc k _ Hfresh), IH, <- app_assoc; [reflexivity|].
      unfold Py.keys in *. rewrite map_app. simpl in *.
      rewrite <- app_assoc. exact Hnd. }
  intros Hnd. apply (H (releases day) []). exact Hnd.
Qed.

(** X17. On a history with a date, when [parse_semver] returns a key for
    every release tag of the latest day, the lists [releases] and
    [downloads] that [create_release_breakdown] builds are the release
    totals of that day, each once, in an order in which no release is
    before one whose version key is strictly smaller; when [parse_semver]
    raises on a tag, the function raises in its sort. With distinct tags
    the totals are those of the releases of the day. The statement ends
    where the two lists are built: the plotting calls that follow are not
    part of it. *)
Theorem create_release_breakdown_sorted (h : history) :
  h <> ∅ ->
  exists d day,
    latest h = Some (d, day) /\
    ((forall x, In x (release_totals day) -> is_Some (parse_semver (fst x))) ->
     exists sr,
       create_release_breakdown h = Some (Some (map fst sr, map snd sr)) /\
       Permutation sr (release_totals day) /\
       forall (i j : nat) (a b : string * Z),
         (i < j)%nat -> sr !! i = Some a -> sr !! j = Some b ->
         sorts_before (fst b) (fst a) = false) /\
    ((exists x, In x (release_totals day) /\ parse_semver (fst x) = None) ->
     create_release_breakdown h = None) /\
    (NoDup (Py.keys (releases day)) ->
     release_totals day
     = map (fun e => (fst e, r_total_downloads (snd e))) (releases day)).
Proof.
  intros Hne. destruct (latest_greatest h Hne) as (d & day & Hl & _ & _).
  exists d, day. split; [exact Hl|]. split; [|split].
  - intros Hall.
    destruct (decorate_spec (release_totals day) Hall)
      as (dec & Hdec & Hsnd & Hkey).
    set (le := fun a b : key * (string * Z) => key_le (fst a) (fst b)).
    exists (map snd (Py.sorted_by le dec)). split; [|split].
    + unfold create_release_breakdown.
      destruct (decide (h = ∅)); [contradiction|].
      rewrite Hl. simpl. rewrite Hdec. reflexivity.
    + rewrite <- Hsnd. apply Permutation_map, sorted_by_Permutation.
    + intros i j a b Hij Hi Hj. rewrite map_lookup in Hi, Hj.
      destruct (Py.sorted_by le dec !! i) as [[ka a']|] eqn:Ei; [|discriminate].
      destruct (Py.sorted_by le dec !! j) as [[kb b']|] eqn:Ej; [|discriminate].
      simpl in Hi, Hj. injection Hi as <-. injection Hj as <-.
      assert (Hle : le (ka, a') (kb, b') = true).
      { apply (ascending_lookup le (Py.sorted_by le dec)) with (i := i) (j := j);
          try assumption.
        apply sorted_by_ascending.
        - intros x y. apply key_le_total.
        - intros x y z. apply key_le_trans. }
      assert (Ha : parse_semver (fst a') = Some ka).
      { apply (Hkey (ka, a')), (sorted_by_In le),
          list_elem_of_In, list_elem_of_lookup. eauto. }
      assert (Hb : parse_semver (fst b') = Some kb).
      { apply (Hkey (kb, b')), (sorted_by_In le),
          list_elem_of_In, list_elem_of_lookup. eauto. }
      unfold sorts_before. rewrite Ha, Hb.
      unfold le, key_le in Hle. simpl in Hle.
      now apply negb_true_iff in Hle.
  - intros Hbad. unfold create_release_breakdown.
    destruct (decide (h = ∅)); [contradiction|].
    rewrite Hl. simpl. now rewrite (decorate_raises _ Hbad).
  - apply release_totals_map.
Qed.

End ReleaseBreakdown.

(** * create_time_series_plot *)

Section TimeSeriesFacts.
Import Data Report.
Context {D : Type} (strptime : string -> option D).

Lemma sorted_items_Permutation (h : history) :
  Permutation (sorted_items h) (map_to_list h).
Proof. apply sorted_by_Permutation. Qed.

Lemma sorted_items_In (h : history) (k : string) (day : day_data) :
  In (k, day) (sorted_items h) <-> h !! k = Some day.
Proof.
  unfold sorted_items.
  rewrite (sorted_by_In (fun a b => PyStr.le (fst a) (fst b))).
  rewrite <- list_elem_of_In. apply elem_of_map_to_list.
Qed.

(** The items come in strictly increasing order of their dates. *)
Lemma sorted_items_increasing (h : history) (i j : nat)
    (a b : string * day_data) :
  (i < j)%nat -> sorted_items h !! i = Some a -> sorted_items h !! j = Some b ->
  PyStr.lt (fst a) (fst b) = true.
Proof.
  intros Hij Hi Hj.
  assert (Hle : PyStr.le (fst a) (fst b) = true).
  { apply (ascending_lookup (fun a b => PyStr.le (fst a) (fst b))
             (sorted_items h)) with (i := i) (j := j); try assumption.
    apply sorted_by_ascending.
    - intros x y. apply le_total.
    - intros x y z. apply le_trans. }
  apply le_iff in Hle as [Hlt | Heq].
  - unfold PyStr.lt, String.ltb. now rewrite Hlt.
  - exfalso.
    assert (Hnd : NoDup (map fst (sorted_items h))).
    { pose proof (Permutation_map fst (sorted_items_Permutation h)) as P.
      rewrite P. exact (NoDup_fst_map_to_list h). }
    assert (Hi' : map fst (sorted_items h) !! i = Some (fst a))
      by (rewrite map_lookup, Hi; reflexivity).
    assert (Hj' : map fst (sorted_items h) !! j = Some (fst b))
      by (rewrite map_lookup, Hj; reflexivity).
    rewrite <- Heq in Hj'.
    pose proof (NoDup_lookup _ _ _ _ Hnd Hi' Hj'). lia.
Qed.

Lemma fold_plot_point_None (items : list (string * day_data)) :
  fold_left (plot_point strptime) items None = None.
Proof. induction items as [|x items IH]; simpl; [reflexivity | exact IH]. Qed.

(** The loop, when every date parses. *)
Lemma fold_plot_point_Some (items : list (string * day_data)) :
  forall (dates : list D) (totals : list Z),
    (forall x, In x items -> is_Some (strptime (fst x))) ->
    exists ds,
      Forall2 (fun x d => strptime (fst x) = Some d) items ds /\
      fold_left (plot_point strptime) items (Some (dates, totals))
      = Some (dates ++ ds,
              totals ++ map (fun x => total_downloads (snd x)) items).
Proof.
  induction items as [|x items IH]; intros dates totals Hall; simpl.
  - exists []. split; [constructor|]. now rewrite !app_nil_r.
  - destruct (Hall x (or_introl eq_refl)) as [d Hd]. rewrite Hd. simpl.
    destruct (IH (dates ++ [d]) (totals ++ [total_downloads (snd x)]))
      as (ds & Hds & Hrun); [intros y Hy; apply Hall; right; exact Hy|].
    exists (d :: ds). split; [constructor; assumption|].
    rewrite Hrun, <- !app_assoc. reflexivity.
Qed.

(** The loop, when some date does not parse. *)
Lemma fold_plot_point_fails (items : list (string * day_data)) :
  forall acc,
    (exists x, In x items /\ strptime (fst x) = None) ->
    fold_left (plot_point strptime) items acc = None.
Proof.
  induction items as [|x items IH]; intros acc (y & Hy & Hnone); [destruct Hy|].
  simpl. destruct Hy as [<- | Hy].
  - destruct acc as [[dates totals]|]; simpl;
      [rewrite Hnone; simpl|]; apply fold_plot_point_None.
  - apply IH. eauto.
Qed.

(** X18. On a history with a date, [create_time_series_plot] plots one
    point per date of the history, in strictly increasing order of the
    date strings, each with the [total_downloads] of its date, when every
    date string parses; and it raises when one does not. *)
Theorem create_time_series_plot_points (h : history) :
  h <> ∅ ->
  ((forall k, is_Some (h !! k) -> is_Some (strptime k)) ->
   exists (items : list (string * day_data)) (dates : list D),
     create_time_series_plot strptime h
     = Some (Some (dates, map (fun x => total_downloads (snd x)) items)) /\
     Forall2 (fun x d => strptime (fst x) = Some d) items dates /\
     Permutation items (map_to_list h) /\
     forall (i j : nat) (a b : string * day_data),
       (i < j)%nat -> items !! i = Some a -> items !! j = Some b ->
       PyStr.lt (fst a) (fst b) = true) /\
  ((exists k, is_Some (h !! k) /\ strptime k = None) ->
   create_time_series_plot strptime h = None).
Proof.
  intros Hne. unfold create_time_series_plot.
  destruct (decide (h = ∅)); [contradiction|]. split.
  - intros Hall.
    destruct (fold_plot_point_Some (sorted_items h) [] [])
      as (ds & Hds & Hrun).
    { intros [k day] Hin. apply sorted_items_In in Hin. apply Hall. eauto. }
    exists (sorted_items h), ds. rewrite Hrun. simpl.
    split; [reflexivity|]. split; [exact Hds|].
    split; [apply sorted_items_Permutation|].
    intros i j a b. apply sorted_items_increasing.
  - intros (k & [day Hday] & Hnone).
    rewrite fold_plot_point_fails; [reflexivity|].
    exists (k, day). split; [apply sorted_items_In, Hday | exact Hnone].
Qed.

End TimeSeriesFacts.

(** * The groups of create_asset_breakdown *)

Section AssetGroups.
Import Data Visualize Report.

Lemma add_asset_get (g : Py.dict Z) (s : stat) (l : string) :
  Py.get (add_asset g s) l
  = if String.eqb (platform_arch (asset_name s)) l
    then Some (default 0 (Py.get g l) + download_count s)
    else Py.get g l.
Proof.
  unfold add_asset, Py.mem.
  destruct (String.eqb_spec (platform_arch (asset_name s)) l) as [<-|Hne].
  - destruct (Py.get g (platform_arch (asset_name s))) as [v|] eqn:Hget; simpl.
    + rewrite Hget. apply get_set_eq.
    + rewrite !get_set_eq. reflexivity.
  - destruct (Py.get g (platform_arch (asset_name s))) as [v|] eqn:Hget; simpl.
    + apply get_set_ne, Hne.
    + rewrite !get_set_ne by exact Hne. reflexivity.
Qed.

Lemma add_asset_keys_NoDup (g : Py.dict Z) (s : stat) :
  NoDup (Py.keys g) -> NoDup (Py.keys (add_asset g s)).
Proof.
  intros Hg. unfold add_asset.
  destruct (negb (Py.mem g (platform_arch (asset_name s))));
    auto using keys_set_NoDup.
Qed.

Lemma fold_add_asset_get (ss : list stat) (l : string) :
  forall g : Py.dict Z,
    Py.get (fold_left add_asset ss g) l
    = match List.filter
              (fun s => String.eqb (platform_arch (asset_name s)) l) ss with
      | [] => Py.get g l
      | f => Some (default 0 (Py.get g l) + Py.sum (map download_count f))
      end.
Proof.
  induction ss as [|s ss IH]; intros g; simpl; [reflexivity|].
  rewrite IH, add_asset_get.
  destruct (String.eqb (platform_arch (asset_name s)) l); simpl.
  - destruct (List.filter _ ss) as [|s' f]; simpl.
    + rewrite sum_cons, sum_nil. f_equal. lia.
    + rewrite !sum_cons. f_equal. lia.
  - reflexivity.
Qed.

Lemma fold_add_asset_keys_NoDup (ss : list stat) :
  forall g : Py.dict Z,
    NoDup (Py.keys g) -> NoDup (Py.keys (fold_left add_asset ss g)).
Proof.
  induction ss as [|s ss IH]; intros g Hg; simpl; [exact Hg|].
  apply IH, add_asset_keys_NoDup, Hg.
Qed.

(** The two nested loops are one loop over the selected rows. *)
Lemma asset_loops_flat (day : day_data) (tags : list string) :
  forall g : Py.dict Z,
    fold_left
      (fun asset_groups release_tag =>
         match Py.get (releases day) release_tag with
         | Some release_data =>
             fold_left add_asset (r_assets release_data) asset_groups
         | None => asset_groups
         end)
      tags g
    = fold_left add_asset
        (flat_map (fun release_tag =>
                     match Py.get (releases day) release_tag with
                     | Some release_data => r_assets release_data
                     | None => []
                     end) tags) g.
Proof.
  induction tags as [|t tags IH]; intros g; simpl; [reflexivity|].
  rewrite fold_left_app, IH. destruct (Py.get (releases day) t); reflexivity.
Qed.

Lemma create_asset_breakdown_latest (h : history) (d : string) (day : day_data) :
  h <> ∅ -> latest h = Some (d, day) ->
  create_asset_breakdown h = Some (fold_left add_asset (selected_assets day) []).
Proof.
  intros Hne Hl. unfold create_asset_breakdown, latest in *.
  destruct (decide (h = ∅)); [contradiction|].
  destruct (Py.max (Py.gkeys h)) as [m|]; [|discriminate]. simpl in *.
  destruct (h !! m) as [day'|]; [|discriminate]. simpl in *.
  injection Hl as <- <-. rewrite asset_loops_flat. reflexivity.
Qed.

(** X19. [create_asset_breakdown] returns at its guard, before it builds
    [asset_groups], exactly on the empty history. Otherwise the
    [asset_groups] it has built when its loops end has one entry per
    platform and architecture label of the selected rows, labels
    distinct, and the entry of a label is the sum of the download counts
    of the selected rows with that label; so the entries add up to the
    downloads of the selected rows. The statement ends where
    [asset_groups] is built: the plotting calls that follow are not part
    of it. *)
Theorem create_asset_breakdown_groups (h : history) :
  (create_asset_breakdown h = None <-> h = ∅) /\
  (h <> ∅ ->
   exists d day groups,
     latest h = Some (d, day) /\
     create_asset_breakdown h = Some groups /\
     NoDup (Py.keys groups) /\
     (forall l,
         Py.get groups l
         = match List.filter
                   (fun s => String.eqb (platform_arch (asset_name s)) l)
                   (selected_assets day) with
           | [] => None
           | f => Some (Py.sum (map download_count f))
           end) /\
     Py.sum (map snd groups)
     = Py.sum (map download_count (selected_assets day))).
Proof.
  assert (Hsome : h <> ∅ ->
    exists d day, latest h = Some (d, day) /\
      create_asset_breakdown h
      = Some (fold_left add_asset (selected_assets day) [])).
  { intros Hne. destruct (latest_greatest h Hne) as (d & day & Hl & _).
    exists d, day. split; [exact Hl|].
    apply (create_asset_breakdown_latest h d day Hne Hl). }
  split.
  - split.
    + intros Hnone. destruct (decide (h = ∅)) as [He|Hne]; [exact He|].
      destruct (Hsome Hne) as (d & day & _ & Hrun). congruence.
    + intros ->. reflexivity.
  - intros Hne. destruct (Hsome Hne) as (d & day & Hl & Hrun).
    exists d, day, (fold_left add_asset (selected_assets day) []).
    split; [exact Hl|]. split; [exact Hrun|].
    split; [apply fold_add_asset_keys_NoDup; constructor|].
    split.
    + intros l. rewrite fold_add_asset_get. simpl.
      destruct (List.filter _ (selected_assets day)); reflexivity.
    + assert (H : forall ss (g : Py.dict Z),
        Py.sum (map snd (fold_left add_asset ss g))
        = Py.sum (map snd g) + Py.sum (map download_count ss)).
      { induction ss as [|s ss IH]; intros g; simpl.
        - rewrite sum_nil. lia.
        - rewrite IH, sum_cons. unfold add_asset, Py.mem.
          assert (Hset : forall (d0 : Py.dict Z) k v,
            Py.sum (map snd (Py.set d0 k v))
            = Py.sum (map snd d0) - default 0 (Py.get d0 k) + v).
          { clear. induction d0 as [|[k0 v0] d0 IHd]; intros k v; simpl.
            - rewrite sum_cons, sum_nil. lia.
            - destruct (String.eqb k0 k); simpl; rewrite !sum_cons; simpl;
                [lia|]. rewrite IHd. lia. }
          destruct (Py.get g (platform_arch (asset_name s))) eqn:Hget; simpl.
          + rewrite Hget, Hset, Hget. simpl. lia.
          + rewrite get_set_eq, !Hset, get_set_eq, Hget. simpl. lia. }
      rewrite H. simpl. rewrite sum_nil. lia.
Qed.

(** X20. The releases that [create_asset_breakdown] selects are five tags
    of the day, or all when there are fewer, and they are the greatest in
    the order of strings: every tag of the day that is not selected is
    below every selected one. *)
Theorem selected_release_tags_greatest (day : day_data) :
  length (selected_release_tags day)
  = Nat.min 5 (length (Py.keys (releases day))) /\
  (forall t, In t (selected_release_tags day) ->
             In t (Py.keys (releases day))) /\
  (forall t u,
      In t (selected_release_tags day) ->
      In u (Py.keys (releases day)) ->
      ~ In u (selected_release_tags day) ->
      PyStr.le u t = true).
Proof.
  unfold selected_release_tags, Py.sorted_reverse.
  set (le := fun a b : string => PyStr.le b a).
  set (ks := Py.keys (releases day)).
  split; [|split].
  - rewrite length_take, sorted_by_length. reflexivity.
  - intros t Ht. apply (sorted_by_In le).
    apply list_elem_of_In in Ht. apply list_elem_of_In.
    exact (subseteq_take _ _ _ Ht).
  - intros t u Ht Hu Hnot.
    apply (ascending_take_drop le (Py.sorted_by le ks) 5).
    + apply sorted_by_ascending.
      * intros a b. unfold le. destruct (le_total a b); auto.
      * intros a b c Hab Hbc. unfold le in *. eapply le_trans; eassumption.
    + exact Ht.
    + apply (sorted_by_In le) in Hu.
      rewrite <- (take_drop 5 (Py.sorted_by le ks)) in Hu.
      apply in_app_iff in Hu as [Hu | Hu]; [contradiction | exact Hu].
Qed.

End AssetGroups.

(** * print_summary *)

Section Summary.
Import Data Tracker Pipeline Report.

(** The loop over the assets: whether a row has [daily_change], and the
    sum of the ones there are. *)
Lemma daily_change_total_spec (day : day_data) :
  daily_change_total day
  = (existsb has_daily_change (all_assets day),
     Py.sum (map (fun s => default 0 (daily_change s)) (all_assets day))).
Proof.
  unfold daily_change_total.
  assert (H : forall ss (b : bool) (t : Z),
    fold_left
      (fun '(has_daily_changes, daily_total) s =>
         match daily_change s with
         | Some c => (true, daily_total + c)
         | None => (has_daily_changes, daily_total)
         end) ss (b, t)
    = (b || existsb has_daily_change ss,
       t + Py.sum (map (fun s => default 0 (daily_change s)) ss))).
  { induction ss as [|s ss IH]; intros b t; simpl.
    - rewrite orb_false_r, sum_nil. f_equal. lia.
    - rewrite sum_cons.
      destruct (daily_change s) as [c|] eqn:E; rewrite IH.
      + assert (has_daily_change s = true) as ->
          by (unfold has_daily_change; now rewrite E).
        simpl. rewrite orb_true_r. f_equal. lia.
      + assert (has_daily_change s = false) as ->
          by (unfold has_daily_change; now rewrite E).
        simpl. reflexivity. }
  rewrite H. simpl. reflexivity.
Qed.

Lemma print_summary_latest (h : history) (d : string) (day : day_data) :
  h <> ∅ -> latest h = Some (d, day) ->
  print_summary h
  = Some (Some (Summary d (total_downloads day)
                        (printed_daily_total (all_assets day))
                        (top_releases (release_totals day)))).
Proof.
  intros Hne Hl. unfold print_summary.
  destruct (decide (h = ∅)); [contradiction|].
  rewrite Hl. simpl. rewrite daily_change_total_spec.
  unfold printed_daily_total. reflexivity.
Qed.


Lemma dict_stats_append_perm (d : Py.dict release_data) (k : string)
    (rd : release_data) (t : Z) (s : stat) :
  Py.get d k = Some rd ->
  Permutation (dict_stats (Py.set d k (ReleaseData t (r_assets rd ++ [s]))))
              (s :: dict_stats d).
Proof.
  unfold dict_stats. induction d as [|[k' v'] d IH]; simpl; [discriminate|].
  destruct (String.eqb k' k).
  - intros [= ->]. simpl. rewrite <- app_assoc.
    rewrite (Permutation_app_comm [s]), app_assoc.
    symmetry. apply Permutation_cons_append.
  - intros H. simpl. rewrite (IH H). symmetry. apply Permutation_middle.
Qed.

Lemma group_stat_perm (d : Py.dict release_data) (s : stat) :
  Permutation (dict_stats (group_stat d s)) (s :: dict_stats d).
Proof.
  unfold group_stat, Py.mem.
  destruct (Py.get d (release_tag s)) as [rd|] eqn:Hget; simpl.
  - rewrite Hget. apply dict_stats_append_perm, Hget.
  - rewrite get_set_eq.
    rewrite (dict_stats_append_perm _ _ (ReleaseData 0 []))
      by apply get_set_eq.
    rewrite (set_absent d _ _ Hget). unfold dict_stats.
    rewrite flat_map_app. simpl. now rewrite !app_nil_r.
Qed.

(** The rows of the saved day are the rows of the run, regrouped. *)
Lemma make_day_data_perm (stats : list stat) :
  Permutation (all_assets (make_day_data stats)) stats.
Proof.
  change (all_assets (make_day_data stats))
    with (dict_stats (fold_left group_stat stats [])).
  assert (H : forall d,
    Permutation (dict_stats (fold_left group_stat stats d))
                (dict_stats d ++ stats)).
  { induction stats as [|s stats IH]; intros d; simpl.
    - now rewrite app_nil_r.
    - rewrite IH, group_stat_perm. apply Permutation_middle. }
  apply (H []).
Qed.

Lemma existsb_Permutation {A} (f : A -> bool) (l1 l2 : list A) :
  Permutation l1 l2 -> existsb f l1 = existsb f l2.
Proof.
  induction 1; simpl; try congruence.
  destruct (f x), (f y); reflexivity.
Qed.

(** X22. The summary matches the run. When a run finishes and the date of
    its save is the latest date of the history, [print_summary] on the
    history it wrote prints that date, the total the run printed, and the
    same downloads of the last 24 hours, or none if the run printed
    none. *)
Theorem print_summary_after_run (api : Z -> reply) (fuel : nat) (now : clock)
    (fs fs' : files) (found : nat) (total : Z) (daily : option Z) :
  (forall k, is_Some (default (∅ : history) (download_history_json fs) !! k) ->
             PyStr.le k (json_date now) = true) ->
  run api fuel now fs = Some (fs', Finished found total daily) ->
  exists (h : history) (top : list (string * Z)),
    download_history_json fs' = Some h /\
    print_summary h
    = Some (Some (Summary (json_date now) total daily top)).
Proof.
  intros Hlatest. unfold run.
  destruct (fetch_releases api fuel) as [[[releases|e] log]|];
    [|discriminate|discriminate].
  set (stats := calculate_daily_changes _ _).
  destruct (save_to_csv (download_history_csv fs) stats) as [c ok].
  destruct ok; simpl; [|discriminate].
  intros [= <- _ <- <-]. simpl.
  set (h := <[json_date now := make_day_data stats]>
              (default ∅ (download_history_json fs))).
  assert (Hne : h <> ∅).
  { intros He. assert (Hl : h !! json_date now = None)
      by (rewrite He; apply lookup_empty).
    unfold h in Hl. rewrite lookup_insert_eq in Hl. discriminate. }
  destruct (latest_greatest h Hne) as (d & day & Hl & Hd & Hge).
  assert (Hdate : d = json_date now).
  { apply le_antisym.
    - destruct (decide (json_date now = d)) as [<-|Hnd]; [apply le_refl|].
      apply Hlatest. unfold h in Hd.
      rewrite lookup_insert_ne in Hd by exact Hnd. eauto.
    - apply Hge. unfold h. rewrite lookup_insert_eq. eauto. }
  subst d. unfold h in Hd. rewrite lookup_insert_eq in Hd.
  injection Hd as <-.
  exists h, (top_releases (release_totals (make_day_data stats))).
  split; [reflexivity|].
  rewrite (print_summary_latest h _ _ Hne Hl). simpl.
  unfold printed_daily_total.
  rewrite (existsb_Permutation _ _ _ (make_day_data_perm stats)).
  rewrite (sum_Permutation _ _
             (Permutation_map (fun s => default 0 (daily_change s))
                              (make_day_data_perm stats))).
  reflexivity.
Qed.

End Summary.

(** * The theorems at concrete inputs *)

Section Witnesses.
Import Data Tracker Pipeline Report.

Lemma singleton_history_nonempty (k : string) (v : day_data) (h : history) :
  <[k := v]> h <> ∅.
Proof. apply insert_non_empty. Qed.

Lemma extract_download_stats_pairs_unique_witness :
  NoDup (map pair_of
             (extract_download_stats "2025-06-02T09:00:00"
                [RunExamples.beta9_assets; RunExamples.old_release])).
Proof.
  apply extract_download_stats_pairs_unique.
  - apply (bool_decide_unpack _). vm_compute. exact I.
  - intros r [<- | [<- | []]]; apply (bool_decide_unpack _);
      vm_compute; exact I.
Defined.



Lemma rerun_zeroes_daily_changes_witness :
  calculate_daily_changes
    (save_to_json "2025-06-02" (Some Examples.two_days)
                  [Examples.row "v1.0.0" "nargo.tar.gz" 12])
    [Examples.row "v1.0.0" "nargo.tar.gz" 12]
  = [set_daily_change (Examples.row "v1.0.0" "nargo.tar.gz" 12) 0].
Proof.
  apply (rerun_zeroes_daily_changes (Some Examples.two_days) "2025-06-02"
           [Examples.row "v1.0.0" "nargo.tar.gz" 12]).
  - intros k [v Hk]. simpl in Hk. unfold Examples.two_days in Hk.
    destruct (decide (Date.strftime Examples.june2 = k)) as [<-|N2];
      [reflexivity|].
    rewrite lookup_insert_ne in Hk by assumption.
    destruct (decide (Date.strftime Examples.june1 = k)) as [<-|N1];
      [reflexivity|].
    rewrite lookup_insert_ne, lookup_empty in Hk by assumption. discriminate.
  - vm_compute. apply NoDup_singleton.
  - intros a b [<- | []] [<- | []] _. reflexivity.
  - reflexivity.
Defined.

Lemma daily_changes_add_up_witness :
  Py.sum (map (fun s => default 0 (daily_change s))
              (calculate_daily_changes
                 (save_to_json "2025-06-02" None
                               [Examples.row "v1.0.0" "nargo.tar.gz" 10])
                 [Examples.row "v1.0.0" "nargo.tar.gz" 12]))
  = Py.sum (map download_count [Examples.row "v1.0.0" "nargo.tar.gz" 12])
    - Py.sum (map download_count [Examples.row "v1.0.0" "nargo.tar.gz" 10]).
Proof.
  apply (daily_changes_add_up None "2025-06-02"
           [Examples.row "v1.0.0" "nargo.tar.gz" 10]).
  - intros k [v Hk]. simpl in Hk. rewrite lookup_empty in Hk. discriminate.
  - vm_compute. apply NoDup_singleton.
  - intros a b [<- | []] [<- | []] _. reflexivity.
  - reflexivity.
Defined.


Lemma run_totals_agree_witness :
  exists (h : history) (day : day_data) (rows : list line),
    download_history_json RunExamples.after_first_run = Some h /\
    h !! "2025-06-02" = Some day /\
    total_downloads day = 25 /\
    Py.sum (map (fun e => r_total_downloads (snd e)) (releases day)) = 25 /\
    daily_totals_csv RunExamples.after_first_run
    = Some (rows ++ [Row [CStr "2025-06-02"; CStr "2025-06-02T09:00:01";
                          CInt 25]]).
Proof.
  apply (run_totals_agree RunExamples.one_page 10 RunExamples.june2_clock
           RunExamples.fresh RunExamples.after_first_run 1 25 None).
  vm_compute. reflexivity.
Defined.


Lemma create_release_breakdown_sorted_witness :
  exists d day sr,
    latest Examples.six_betas_history = Some (d, day) /\
    create_release_breakdown Examples.six_betas_history
    = Some (Some (map fst sr, map snd sr)) /\
    Permutation sr (release_totals day).
Proof.
  destruct (create_release_breakdown_sorted Examples.six_betas_history)
    as (d & day & Hl & Hsorted & _).
  - apply singleton_history_nonempty.
  - assert (Hday : day = make_day_data Examples.six_betas).
    { vm_compute in Hl. injection Hl as _ <-. reflexivity. }
    destruct Hsorted as (sr & Hrun & Hperm & _).
    + subst day. vm_compute.
      intros x [<- | [<- | [<- | [<- | [<- | [<- | []]]]]]]; eauto.
    + exists d, day, sr. split; [exact Hl|]. split; assumption.
Defined.

Lemma create_time_series_plot_points_witness :
  exists (items : list (string * day_data)) (dates : list string),
    create_time_series_plot RunExamples.any_date Examples.two_days
    = Some (Some (dates, map (fun x => total_downloads (snd x)) items)) /\
    Permutation items (map_to_list Examples.two_days).
Proof.
  destruct (create_time_series_plot_points
              RunExamples.any_date Examples.two_days) as [H _].
  - apply singleton_history_nonempty.
  - destruct H as (items & dates & Hrun & _ & Hperm & _).
    + intros k _. unfold RunExamples.any_date. eauto.
    + exists items, dates. split; assumption.
Defined.

Lemma create_asset_breakdown_groups_witness :
  exists d day groups,
    latest Examples.two_assets_history = Some (d, day) /\
    Visualize.create_asset_breakdown Examples.two_assets_history = Some groups /\
    Py.sum (map snd groups)
    = Py.sum (map download_count (selected_assets day)).
Proof.
  destruct (create_asset_breakdown_groups Examples.two_assets_history)
    as [_ H].
  destruct H as (d & day & groups & Hl & Hrun & _ & _ & Hsum).
  - apply singleton_history_nonempty.
  - exists d, day, groups. split; [exact Hl|]. split; assumption.
Defined.

Lemma selected_release_tags_greatest_witness :
  PyStr.le "v1.0.0-beta.10" "v1.0.0-beta.5" = true.
Proof.
  destruct (selected_release_tags_greatest
              (make_day_data Examples.six_betas)) as (_ & _ & H).
  apply H.
  - vm_compute. tauto.
  - vm_compute. tauto.
  - vm_compute. intros [H1 | [H1 | [H1 | [H1 | [H1 | []]]]]]; discriminate.
Defined.


Lemma print_summary_after_run_witness :
  exists (h : history) (top : list (string * Z)),
    download_history_json RunExamples.after_first_run = Some h /\
    print_summary h = Some (Some (Summary "2025-06-02" 25 None top)).
Proof.
  apply (print_summary_after_run RunExamples.one_page 10
           RunExamples.june2_clock RunExamples.fresh
           RunExamples.after_first_run 1 25 None).
  - intros k [v Hk]. simpl in Hk. rewrite lookup_empty in Hk. discriminate.
  - vm_compute. reflexivity.
Defined.

End Witnesses.

(** * The strings that parse, the dates that sort, and a second call *)

Section Further.
Import Data Tracker Semver.

(** X23. Among the strings of this development, whose characters are
    code points below 256, a version string matches the pattern of
    [parse_semver] exactly when, after its leading "v" characters, it
    reads: digits 0 to 9, ".", digits, ".", digits, then optionally "-"
    and a non-empty label of ASCII letters, digits and "-", then
    optionally "." and digits, then optionally one final newline. The
    groups of a match are determined by the string. *)
Theorem parsable_iff_pattern (s : string) :
  (parsable s = true <-> exists m, in_pattern (PyStr.lstrip "v" s) m) /\
  (forall m1 m2,
      in_pattern (PyStr.lstrip "v" s) m1 ->
      in_pattern (PyStr.lstrip "v" s) m2 -> m1 = m2).
Proof.
  split.
  - unfold parsable. split.
    + destruct (re_match (PyStr.lstrip "v" s)) as [m|] eqn:Hm; [|discriminate].
      intros _. exists m. apply re_match_iff, Hm.
    + intros [m Hm]. apply re_match_iff in Hm. now rewrite Hm.
  - intros m1 m2 H1 H2. apply re_match_iff in H1, H2. congruence.
Qed.

(** X24. Calling [calculate_daily_changes] again on its own result, with
    the same history file, changes nothing. *)
Theorem calculate_daily_changes_idempotent
    (file : option history) (current : list stat) :
  calculate_daily_changes file (calculate_daily_changes file current)
  = calculate_daily_changes file current.
Proof.
  unfold calculate_daily_changes. destruct file as [h|]; [|reflexivity].
  destruct (length _ <? 1)%nat; [reflexivity|].
  destruct (last _ ≫= _) as [pd|]; [|reflexivity].
  rewrite map_map. apply map_ext. intros s. reflexivity.
Qed.

(** X25. For dates with a four-digit year, the order of the keys that
    [strftime("%Y-%m-%d")] gives is the order of the dates, and different
    dates give different keys: sorting the keys of the history sorts its
    days chronologically. *)
Theorem history_keys_chronological (d1 d2 : Date.date) :
  Date.valid d1 -> Date.valid d2 ->
  (PyStr.lt (Date.strftime d1) (Date.strftime d2) = true
   <-> Date.compare d1 d2 = Lt) /\
  (Date.strftime d1 = Date.strftime d2 -> d1 = d2).
Proof.
  intros H1 H2. pose proof (strftime_compare d1 d2 H1 H2) as Hc. split.
  - unfold PyStr.lt, String.ltb. rewrite Hc.
    destruct (Date.compare d1 d2); split; congruence.
  - intros Heq. rewrite Heq, string_compare_refl in Hc.
    symmetry in Hc. unfold Date.compare in Hc.
    destruct d1 as [y1 m1 e1], d2 as [y2 m2 e2]. simpl in Hc.
    destruct (N.compare_spec y1 y2); simpl in Hc; try discriminate.
    destruct (N.compare_spec m1 m2); simpl in Hc; try discriminate.
    apply N.compare_eq in Hc. congruence.
Qed.

Lemma history_keys_chronological_witness :
  PyStr.lt "2025-06-01" "2025-06-02" = true <->
  Date.compare Examples.june1 Examples.june2 = Lt.
Proof.
  apply (history_keys_chronological Examples.june1 Examples.june2);
    unfold Date.valid; simpl; lia.
Defined.

End Further.
